(** * fitness_flex: the two HTTP actions of [convex/http.ts]

    A shallow embedding of the Clerk webhook route ([/clerk-webhook]) and of
    the plan generation route ([/vapi/generate-program]).

    The handlers are glue code around services that live outside the
    repository: the JavaScript runtime ([JSON.parse], [JSON.stringify],
    number printing), the svix [Webhook] class, the Convex mutation runner
    and [fetch].  Those are the fields of a [Runtime] record; every theorem is
    stated for an arbitrary runtime, and [Demo] instantiates one to run the
    handlers on concrete requests.

    Conventions.
    - A JavaScript string is a [string] holding the UTF-8 bytes of its text.
    - A JavaScript number is a binary64 [float].
    - A plain object is an association list in property order.
    - An [async] function is a computation in the monad [M]: it threads the
      outside world and the list of effects performed so far, and either
      returns a value or throws.
    - Console output is not part of the model. *)

From Stdlib Require Import String Ascii List Bool Arith ZArith Lia.
From Stdlib Require Import PrimFloat FloatOps SpecFloat DecimalString.
Import ListNotations.
Local Open Scope string_scope.
Local Open Scope list_scope.

#[local] Set Warnings "-register-all".

(** ** JavaScript values *)

Module Js.

Inductive value : Type :=
| VUndefined
| VNull
| VBool (b : bool)
| VNum (f : float)
| VStr (s : string)
| VArr (items : list value)
| VObj (props : list (string * value)).

(** What a [throw] carries: an [Error] instance (with its [name] and
    [message]), a value of the kind above, or any other value.  Of the last
    the handlers can see only what [String(x)] and [`${x}`] make of it: a
    string, or a throw (an object without a string conversion, a [Symbol]
    in a template). *)
Inductive exn : Type :=
| JsError (name message : string)
| JsThrown (v : value)
| JsOther (as_string in_template : exn + string).

Definition result (A : Type) : Type := (exn + A)%type.

(** ToBoolean. *)
Definition truthy (v : value) : bool :=
  match v with
  | VUndefined | VNull => false
  | VBool b => b
  | VNum f => negb (PrimFloat.eqb f 0%float || PrimFloat.is_nan f)
  | VStr s => negb (String.eqb s "")
  | VArr _ | VObj _ => true
  end.

(** [a || b] on values. *)
Definition or_else (a b : value) : value := if truthy a then a else b.

(** [v === "lit"]. *)
Definition strict_eq_str (v : value) (lit : string) : bool :=
  match v with
  | VStr s => String.eqb s lit
  | _ => false
  end.

Fixpoint lookup {A : Type} (k : string) (l : list (string * A)) : option A :=
  match l with
  | [] => None
  | (k', v) :: rest => if String.eqb k k' then Some v else lookup k rest
  end.

Definition dec (n : nat) : string := NilZero.string_of_uint (Nat.to_uint n).

Definition type_error_read (of_what key : string) : exn :=
  JsError "TypeError"
    ("Cannot read properties of " ++ of_what ++ " (reading '" ++ key ++ "')").

(** [v.key] for a key that no prototype defines (every key this program
    reads: [success], [data], [type], [email_address], ...).  Reading a
    property of [undefined] or [null] throws a [TypeError]; a missing
    property is [undefined]. *)
Definition get_prop (v : value) (key : string) : result value :=
  match v with
  | VUndefined => inl (type_error_read "undefined" key)
  | VNull => inl (type_error_read "null" key)
  | VObj props =>
      match lookup key props with
      | Some x => inr x
      | None => inr VUndefined
      end
  | VBool _ | VNum _ | VStr _ | VArr _ => inr VUndefined
  end.

Definition char_at (s : string) (i : nat) : value :=
  match String.get i s with
  | Some c => VStr (String c EmptyString)
  | None => VUndefined
  end.

(** [v[i]] for a literal index [i].  On a string the result is the unit at
    that position (exact for ASCII text). *)
Definition get_index (v : value) (i : nat) : result value :=
  match v with
  | VUndefined => inl (type_error_read "undefined" (dec i))
  | VNull => inl (type_error_read "null" (dec i))
  | VArr items => inr (nth i items VUndefined)
  | VStr s => inr (char_at s i)
  | VObj props =>
      match lookup (dec i) props with
      | Some x => inr x
      | None => inr VUndefined
      end
  | VBool _ | VNum _ => inr VUndefined
  end.

(** The source expression of a destructuring pattern's right-hand side
    appears in the message of the [TypeError] thrown when it is [undefined]
    or [null]. *)
Definition type_error_destructure (first_key source of_what : string) : exn :=
  JsError "TypeError"
    ("Cannot destructure property '" ++ first_key ++ "' of '" ++ source
       ++ "' as it is " ++ of_what ++ ".").

(** [const { k1, ... } = v]: succeeds on everything but [undefined] and
    [null]. *)
Definition destructurable (first_key source : string) (v : value) : result unit :=
  match v with
  | VUndefined => inl (type_error_destructure first_key source "undefined")
  | VNull => inl (type_error_destructure first_key source "null")
  | _ => inr tt
  end.

(** Property assignment in an object literal: an existing key keeps its
    place, a new key goes last. *)
Fixpoint set_prop (props : list (string * value)) (key : string) (v : value)
  : list (string * value) :=
  match props with
  | [] => [(key, v)]
  | (k, x) :: rest =>
      if String.eqb k key then (k, v) :: rest else (k, x) :: set_prop rest key v
  end.

Fixpoint entries_from (i : nat) (items : list value) : list (string * value) :=
  match items with
  | [] => []
  | x :: rest => (dec i, x) :: entries_from (S i) rest
  end.

Fixpoint units_of (s : string) : list value :=
  match s with
  | EmptyString => []
  | String c rest => VStr (String c EmptyString) :: units_of rest
  end.

(** The own enumerable properties copied by [{ ...v }]. *)
Definition spread (v : value) : list (string * value) :=
  match v with
  | VObj props => props
  | VArr items => entries_from 0 items
  | VStr s => entries_from 0 (units_of s)
  | VUndefined | VNull | VBool _ | VNum _ => []
  end.

(** *** [String.prototype.trim]

    The characters removed are ECMAScript's WhiteSpace and LineTerminator,
    here by their UTF-8 encodings. *)

Definition bytes (l : list nat) : string :=
  fold_right (fun n s => String (ascii_of_nat n) s) EmptyString l.

Definition white_space : list string :=
  map bytes
    ([ [9]; [10]; [11]; [12]; [13]; [32];          (* TAB LF VT FF CR SP *)
       [194; 160];                                 (* U+00A0 *)
       [225; 154; 128] ]                           (* U+1680 *)
     ++ map (fun n => [226; 128; n]) (seq 128 11)  (* U+2000 .. U+200A *)
     ++ [ [226; 128; 168]; [226; 128; 169];        (* U+2028 U+2029 *)
          [226; 128; 175];                         (* U+202F *)
          [226; 129; 159];                         (* U+205F *)
          [227; 128; 128];                         (* U+3000 *)
          [239; 187; 191] ]).                      (* U+FEFF *)

Fixpoint strip_prefix (p s : string) : option string :=
  match p, s with
  | EmptyString, _ => Some s
  | String a p', String b s' => if Ascii.eqb a b then strip_prefix p' s' else None
  | String _ _, EmptyString => None
  end.

Fixpoint strip_any (ps : list string) (s : string) : option string :=
  match ps with
  | [] => None
  | p :: rest =>
      match strip_prefix p s with
      | Some s' => Some s'
      | None => strip_any rest s
      end
  end.

Fixpoint strip_all (fuel : nat) (ps : list string) (s : string) : string :=
  match fuel with
  | 0 => s
  | S fuel' =>
      match strip_any ps s with
      | Some s' => strip_all fuel' ps s'
      | None => s
      end
  end.

Fixpoint rev_string (s acc : string) : string :=
  match s with
  | EmptyString => acc
  | String c rest => rev_string rest (String c acc)
  end.

Definition reverse (s : string) : string := rev_string s EmptyString.

Definition trimStart (s : string) : string :=
  strip_all (String.length s) white_space s.

Definition trimEnd (s : string) : string :=
  reverse (strip_all (String.length s) (map reverse white_space) (reverse s)).

Definition trim (s : string) : string := trimEnd (trimStart s).

End Js.

Export Js.

(** ** Conversions to string that need the runtime's number printer *)

Section ToString.

Variable number_to_string : float -> string.

Fixpoint join (sep : string) (parts : list string) : string :=
  match parts with
  | [] => ""
  | [p] => p
  | p :: rest => p ++ sep ++ join sep rest
  end.

(** ToString, as applied by [`${v}`] and [String(v)], on values built from
    JSON data. *)
Fixpoint to_string (v : value) : string :=
  match v with
  | VUndefined => "undefined"
  | VNull => "null"
  | VBool true => "true"
  | VBool false => "false"
  | VNum f => number_to_string f
  | VStr s => s
  | VArr items =>
      join ","
        (map (fun x => match x with
                       | VUndefined | VNull => ""
                       | _ => to_string x
                       end) items)
  | VObj _ => "[object Object]"
  end.

(** [`${err}`] for a caught [err]: [Error.prototype.toString] on an
    [Error]; the conversion can itself throw. *)
Definition exn_to_string (e : exn) : exn + string :=
  match e with
  | JsError name message =>
      inr (if String.eqb name "" then message
           else if String.eqb message "" then name
           else name ++ ": " ++ message)%string
  | JsThrown v => inr (to_string v)
  | JsOther _ in_template => in_template
  end.

(** [error instanceof Error ? error.message : String(error)]; [String]
    can itself throw. *)
Definition error_message (e : exn) : exn + string :=
  match e with
  | JsError _ message => inr message
  | JsThrown v => inr (to_string v)
  | JsOther as_string _ => as_string
  end.

End ToString.

(** ** HTTP data *)

Record http_request : Type := {
  req_headers : list (string * string);  (* names in lower case, as [Headers] keeps them *)
  req_body : string
}.

Record http_response : Type := {
  status : nat;
  headers : list (string * string);
  body : string
}.

(** [new Response(text, { status })]. *)
Definition text_response (text : string) (code : nat) : http_response :=
  {| status := code; headers := []; body := text |}.

(** [new Response(text, { status, headers: { "Content-Type": "application/json" } })]. *)
Definition json_response (text : string) (code : nat) : http_response :=
  {| status := code;
     headers := [("Content-Type", "application/json")];
     body := text |}.

Record fetch_init : Type := {
  fi_method : string;
  fi_headers : list (string * string);
  fi_body : string
}.

Record fetch_response : Type := {
  fr_status : nat;
  fr_text : result string  (* what [await response.text()] gives *)
}.

(** [response.ok]. *)
Definition fr_ok (r : fetch_response) : bool :=
  Nat.leb 200 (fr_status r) && Nat.leb (fr_status r) 299.

Record svix_headers : Type := {
  svix_id : string;
  svix_timestamp : string;
  svix_signature : string
}.

(** The Convex functions the handlers call through [ctx.runMutation]. *)
Inductive mutation : Type :=
| api_users_syncUser
| api_users_updateUser
| api_plans_createPlan.

(** What a handler does to the outside, in order. *)
Inductive effect : Type :=
| HeaderGet (name : string)
| BodyJson
| WebhookNew (secret : string)
| Verify (payload : string) (h : svix_headers)
| Mutation (fn : mutation) (args : value)
| Fetch (url : string) (init : fetch_init)
| ResponseText.

Definition trace : Type := list effect.

Definition is_mutation (e : effect) : bool :=
  match e with Mutation _ _ => true | _ => false end.

Definition is_verify (e : effect) : bool :=
  match e with Verify _ _ => true | _ => false end.

(** The mutations a trace contains, in order. *)
Definition mutations (t : trace) : list effect := filter is_mutation t.

(** The signature verifications a trace contains, in order. *)
Definition verifications (t : trace) : list effect := filter is_verify t.

(** ** The services around the handlers *)

Record Runtime : Type := {
  World : Type;
  Webhook : Type;
  (** [process.env[name]] *)
  process_env : string -> option string;
  JSON_parse : string -> result value;
  JSON_stringify : value -> string;
  number_to_string : float -> string;
  (** [new Webhook(secret)] of svix *)
  Webhook_new : string -> result Webhook;
  (** [wh.verify(payload, headers)]: the parsed event, or a throw *)
  Webhook_verify : Webhook -> string -> svix_headers -> World -> result value;
  (** [ctx.runMutation(fn, args)] *)
  runMutation : mutation -> value -> World -> result value * World;
  (** [fetch(url, init)] *)
  fetch : string -> fetch_init -> World -> result fetch_response * World
}.

(** ** The monad of [async] code *)

Section Handlers.

Variable R : Runtime.

Definition store : Type := (World R * trace)%type.

Definition M (A : Type) : Type := store -> result A * store.

Definition ret {A : Type} (a : A) : M A := fun s => (inr a, s).

Definition throw {A : Type} (e : exn) : M A := fun s => (inl e, s).

Definition bind {A B : Type} (m : M A) (k : A -> M B) : M B :=
  fun s =>
    match m s with
    | (inr a, s') => k a s'
    | (inl e, s') => (inl e, s')
    end.

(** [try { m } catch (e) { ... }] with the outcome handed to the
    continuation. *)
Definition attempt {A : Type} (m : M A) : M (result A) :=
  fun s => let (r, s') := m s in (inr r, s').

Definition try_catch {A : Type} (m : M A) (handler : exn -> M A) : M A :=
  fun s =>
    match m s with
    | (inr a, s') => (inr a, s')
    | (inl e, s') => handler e s'
    end.

(** A step that cannot touch the world: it returns or throws. *)
Definition lift {A : Type} (r : result A) : M A := fun s => (r, s).

Definition emit (e : effect) : M unit :=
  fun s => (inr tt, (fst s, snd s ++ [e])).

Notation "x <- m ;; k" := (bind m (fun x => k))
  (at level 61, m at next level, right associativity).
Notation "m ;;; k" := (bind m (fun _ => k))
  (at level 61, right associativity).

(** [request.headers.get(name)] *)
Definition headers_get (request : http_request) (name : string)
  : M (option string) :=
  emit (HeaderGet name) ;;;
  ret (lookup name (req_headers request)).

(** [await request.json()] *)
Definition request_json (request : http_request) : M value :=
  emit BodyJson ;;;
  lift (JSON_parse R (req_body request)).

Definition new_Webhook (secret : string) : M (Webhook R) :=
  emit (WebhookNew secret) ;;;
  lift (Webhook_new R secret).

Definition wh_verify (wh : Webhook R) (payload : string) (h : svix_headers)
  : M value :=
  emit (Verify payload h) ;;;
  fun s => (Webhook_verify R wh payload h (fst s), s).

(** [await ctx.runMutation(fn, args)] *)
Definition ctx_runMutation (fn : mutation) (args : value) : M value :=
  emit (Mutation fn args) ;;;
  fun s => let (r, w) := runMutation R fn args (fst s) in (r, (w, snd s)).

(** [await fetch(url, init)] *)
Definition do_fetch (url : string) (init : fetch_init) : M fetch_response :=
  emit (Fetch url init) ;;;
  fun s => let (r, w) := fetch R url init (fst s) in (r, (w, snd s)).

(** [await response.text()] *)
Definition response_text (response : fetch_response) : M string :=
  emit ResponseText ;;;
  lift (fr_text response).

(** The string itself when it is neither [null]/[undefined] nor empty, that
    is when [!s] is false; [None] when [!s] is true. *)
Definition nonempty (s : option string) : option string :=
  match s with
  | Some x => if String.eqb x "" then None else Some x
  | None => None
  end.

(** [`${first_name || ""} ${last_name || ""}`.trim()] *)
Definition full_name (first_name last_name : value) : string :=
  trim (to_string (number_to_string R) (or_else first_name (VStr ""))
        ++ " "
        ++ to_string (number_to_string R) (or_else last_name (VStr ""))).

(** ** [/clerk-webhook] *)

(** The body of [if (eventType === "user.created") { ... }]; [Some r] is
    the [return r] in its [catch]. *)
Definition on_user_created (evt : value) : M (option http_response) :=
  data <- lift (get_prop evt "data") ;;
  lift (destructurable "id" "evt.data" data) ;;;
  id <- lift (get_prop data "id") ;;
  first_name <- lift (get_prop data "first_name") ;;
  last_name <- lift (get_prop data "last_name") ;;
  image_url <- lift (get_prop data "image_url") ;;
  email_addresses <- lift (get_prop data "email_addresses") ;;
  first_address <- lift (get_index email_addresses 0) ;;
  email <- lift (get_prop first_address "email_address") ;;
  let name := VStr (full_name first_name last_name) in
  done <- attempt
    (ctx_runMutation api_users_syncUser
       (VObj [("email", email); ("name", name);
              ("image", image_url); ("clerkId", id)])) ;;
  match done with
  | inr _ => ret None
  | inl _ => ret (Some (text_response "Error creating user" 500))
  end.

(** The body of [if (eventType === "user.updated") { ... }]. *)
Definition on_user_updated (evt : value) : M (option http_response) :=
  data <- lift (get_prop evt "data") ;;
  lift (destructurable "id" "evt.data" data) ;;;
  id <- lift (get_prop data "id") ;;
  email_addresses <- lift (get_prop data "email_addresses") ;;
  first_name <- lift (get_prop data "first_name") ;;
  last_name <- lift (get_prop data "last_name") ;;
  image_url <- lift (get_prop data "image_url") ;;
  first_address <- lift (get_index email_addresses 0) ;;
  email <- lift (get_prop first_address "email_address") ;;
  let name := VStr (full_name first_name last_name) in
  done <- attempt
    (ctx_runMutation api_users_updateUser
       (VObj [("clerkId", id); ("email", email);
              ("name", name); ("image", image_url)])) ;;
  match done with
  | inr _ => ret None
  | inl _ => ret (Some (text_response "Error updating user" 500))
  end.

(** Lines 44-84: what happens to a verified event. *)
Definition dispatch (evt : value) : M http_response :=
  eventType <- lift (get_prop evt "type") ;;
  returned <- (if strict_eq_str eventType "user.created"
               then on_user_created evt else ret None) ;;
  match returned with
  | Some response => ret response
  | None =>
      returned <- (if strict_eq_str eventType "user.updated"
                   then on_user_updated evt else ret None) ;;
      match returned with
      | Some response => ret response
      | None => ret (text_response "Webhooks processed successfully" 200)
      end
  end.

Definition clerk_webhook (request : http_request) : M http_response :=
  match nonempty (process_env R "CLERK_WEBHOOK_SECRET") with
  | None =>
      throw (JsError "Error" "Missing CLERK_WEBHOOK_SECRET environment variable")
  | Some webhookSecret =>
      svix_id <- headers_get request "svix-id" ;;
      svix_signature <- headers_get request "svix-signature" ;;
      svix_timestamp <- headers_get request "svix-timestamp" ;;
      match nonempty svix_id, nonempty svix_signature, nonempty svix_timestamp with
      | Some svix_id, Some svix_signature, Some svix_timestamp =>
          payload <- request_json request ;;
          let body := JSON_stringify R payload in
          wh <- new_Webhook webhookSecret ;;
          verified <- attempt
            (wh_verify wh body
               {| svix_id := svix_id;
                  svix_timestamp := svix_timestamp;
                  svix_signature := svix_signature |}) ;;
          match verified with
          | inr evt => dispatch evt
          | inl _ => ret (text_response "Error occurred" 400)
          end
      | _, _, _ => ret (text_response "No svix headers found" 400)
      end
  end.

(** ** [/vapi/generate-program] *)

Definition pythonApiUrl : string := "http://localhost:8000/api/fitness_generator".

(** [result.success && result.data && result.data.success], as a
    condition. *)
Definition double_success (result : value) : M bool :=
  success <- lift (get_prop result "success") ;;
  if truthy success then
    data <- lift (get_prop result "data") ;;
    if truthy data then
      inner <- lift (get_prop data "success") ;;
      ret (truthy inner)
    else ret false
  else ret false.

(** Lines 120-157: parse the upstream's answer and, on double success, save
    the plan. *)
Definition parse_and_save (payload : value) (responseText : string)
  : M http_response :=
  result <- try_catch (lift (JSON_parse R responseText))
    (fun parseErr =>
       shown <- lift (exn_to_string (number_to_string R) parseErr) ;;
       throw (JsError "Error"
                ("Failed to parse Python backend JSON: "
                   ++ shown ++ " | Raw: " ++ responseText))) ;;
  ok <- double_success result ;;
  if ok then
    user_id <- lift (get_prop payload "user_id") ;;
    data <- lift (get_prop result "data") ;;
    diet_plan <- lift (get_prop data "diet_plan") ;;
    workout_plan <- lift (get_prop data "workout_plan") ;;
    name <- lift (get_prop payload "name") ;;
    let planToSave :=
      VObj [("userId", user_id);
            ("dietPlan", diet_plan);
            ("isActive", VBool true);
            ("workoutPlan", workout_plan);
            ("name", or_else name (VStr "Fitness Plan"))] in
    planId <- ctx_runMutation api_plans_createPlan planToSave ;;
    ret (json_response
           (JSON_stringify R (VObj (set_prop (spread result) "planId" planId)))
           200)
  else
    ret (json_response (JSON_stringify R result) 500).

(** The [try] block, lines 94-157. *)
Definition generate_program_try (request : http_request) : M http_response :=
  payload <- request_json request ;;
  response <- do_fetch pythonApiUrl
    {| fi_method := "POST";
       fi_headers := [("Content-Type", "application/json")];
       fi_body := JSON_stringify R payload |} ;;
  responseText <- response_text response ;;
  if negb (fr_ok response) then
    throw (JsError "Error"
             ("Python API error: " ++ dec (fr_status response)
                ++ " - " ++ responseText))
  else
    parse_and_save payload responseText.

Definition generate_program (request : http_request) : M http_response :=
  try_catch (generate_program_try request)
    (fun error =>
       message <- lift (error_message (number_to_string R) error) ;;
       ret (json_response
              (JSON_stringify R
                 (VObj [("success", VBool false);
                        ("error", VStr message)]))
              500)).

(** Running a handler on a request, from a world with nothing done yet. *)
Definition run {A : Type} (m : M A) (w : World R) : result A * store :=
  m (w, []).

End Handlers.

Arguments ret {R A}.
Arguments run {R A}.

(** ** A runtime to run the handlers on

    A small stand-in for the services: a JSON printer, a parser that knows
    the sample documents below, a verifier that accepts the signature
    [v1,<secret>], a store that numbers its records, and an upstream whose
    answer the scenario fixes. *)

Module Demo.

(** Prints whole numbers; the fraction of any other number is dropped. *)
Definition print_number (f : float) : string :=
  match Prim2SF f with
  | S754_zero _ => "0"
  | S754_nan => "NaN"
  | S754_infinity s => (if s then "-" else "") ++ "Infinity"
  | S754_finite s m e =>
      (if s then "-" else "")
        ++ NilZero.string_of_uint
             (N.to_uint
                (Z.to_N (if Z.leb 0 e then Z.shiftl (Zpos m) e
                         else Z.shiftr (Zpos m) (- e))))
  end.

Definition dquote : ascii := ascii_of_nat 34.

Fixpoint escape (s : string) : string :=
  match s with
  | EmptyString => EmptyString
  | String c rest =>
      if Ascii.eqb c dquote || Ascii.eqb c "\"%char
      then String "\"%char (String c (escape rest))
      else String c (escape rest)
  end.

Definition quote (s : string) : string :=
  String dquote (escape s ++ String dquote EmptyString).

Definition enclose (opening closing : string) (parts : list string) : string :=
  (opening ++ join "," parts ++ closing)%string.

Definition member (key text : string) : string :=
  (quote key ++ ":" ++ text)%string.

(** [JSON.stringify]: [None] where it gives [undefined]. *)
Fixpoint stringify (v : value) : option string :=
  match v with
  | VUndefined => None
  | VNull => Some "null"
  | VBool b => Some (if b then "true" else "false")
  | VNum f => Some (if PrimFloat.is_nan f || PrimFloat.is_infinity f
                    then "null" else print_number f)
  | VStr s => Some (quote s)
  | VArr items =>
      Some (enclose "[" "]"
              (map (fun x => match stringify x with
                             | Some t => t
                             | None => "null"
                             end) items))
  | VObj props =>
      Some (enclose "{" "}"
              (flat_map (fun kv => match kv with
                                   | (k, x) =>
                                       match stringify x with
                                       | Some t => [member k t]
                                       | None => []
                                       end
                                   end) props))
  end.

Definition to_json (v : value) : string :=
  match stringify v with
  | Some t => t
  | None => "undefined"
  end.

Definition user_data (emails : list value) : value :=
  VObj [("id", VStr "user_1");
        ("first_name", VStr " Ada");
        ("last_name", VNull);
        ("image_url", VStr "https://img.example/1.png");
        ("email_addresses", VArr emails)].

Definition ada_email : value :=
  VObj [("email_address", VStr "ada@example.com")].

Definition event (type : string) (data : value) : value :=
  VObj [("type", VStr type); ("data", data)].

Definition plan_request (name : list (string * value)) : value :=
  VObj (("user_id", VStr "user_1") :: (name ++ [("goal", VStr "strength")])%list).

Definition diet : value := VObj [("dailyCalories", VNum 2200%float)].

Definition workout : value := VObj [("schedule", VArr [VStr "Mon"; VStr "Thu"])].

Definition generated (flag : value) : value :=
  VObj [("success", flag);
        ("data", VObj [("success", flag);
                       ("diet_plan", diet);
                       ("workout_plan", workout)])].

Definition bad_signature : exn :=
  JsError "WebhookVerificationError" "No matching signature found".

Definition syntax_error : exn := JsError "SyntaxError" "Unexpected token in JSON".

Definition store_error : exn := JsError "Error" "Server Error".

Definition refusal : value := VObj [("success", VBool false)].

Definition documents : list value :=
  [ event "user.created" (user_data [ada_email]);
    event "user.created" (user_data []);
    event "user.updated" (user_data [ada_email]);
    event "user.updated" (user_data []);
    event "user.deleted" (VObj [("id", VStr "user_1")]);
    plan_request [];
    plan_request [("name", VStr "Summer cut")];
    plan_request [("name", VStr "")];
    generated (VBool true);
    generated (VNum 1%float);
    refusal;
    VNull ].

(** Parses the texts [to_json] prints for the sample documents, white space
    around them allowed, and nothing else. *)
Definition parse (text : string) : result value :=
  match find (fun v => String.eqb (to_json v) (trim text)) documents with
  | Some v => inr v
  | None => inl syntax_error
  end.

Record scenario : Type := {
  secret : option string;          (* CLERK_WEBHOOK_SECRET *)
  upstream : result fetch_response; (* what the fetch resolves to *)
  store_fails : bool                (* every mutation throws *)
}.

Definition runtime (sc : scenario) : Runtime :=
  {| World := nat;
     Webhook := string;
     process_env := fun name =>
       if String.eqb name "CLERK_WEBHOOK_SECRET" then secret sc else None;
     JSON_parse := parse;
     JSON_stringify := to_json;
     number_to_string := print_number;
     Webhook_new := fun s => inr s;
     Webhook_verify := fun wh payload h _ =>
       if String.eqb (svix_signature h) ("v1," ++ wh)%string then parse payload
       else inl bad_signature;
     runMutation := fun _ _ n =>
       if store_fails sc then (inl store_error, n)
       else (inr (VStr ("doc_" ++ dec n)%string), S n);
     fetch := fun _ _ n => (upstream sc, n) |}.

Definition answers (code : nat) (text : string) : result fetch_response :=
  inr {| fr_status := code; fr_text := inr text |}.

Definition unreachable : result fetch_response :=
  inl (JsError "TypeError" "fetch failed").

(** A deployment with the webhook secret set. *)
Definition with_secret : Runtime :=
  runtime {| secret := Some "whsec_demo"; upstream := unreachable; store_fails := false |}.

(** A deployment without it. *)
Definition without_secret : Runtime :=
  runtime {| secret := None; upstream := unreachable; store_fails := false |}.

Definition webhook_request (h : list (string * string)) (text : string) : http_request :=
  {| req_headers := h; req_body := text |}.

Definition signed : list (string * string) :=
  [("svix-id", "msg_1"); ("svix-timestamp", "1700000000");
   ("svix-signature", "v1,whsec_demo")].

Definition forged : list (string * string) :=
  [("svix-id", "msg_1"); ("svix-timestamp", "1700000000");
   ("svix-signature", "v1,guess")].

Definition signed_headers : svix_headers :=
  {| svix_id := "msg_1"; svix_timestamp := "1700000000";
     svix_signature := "v1,whsec_demo" |}.

Definition forged_headers : svix_headers :=
  {| svix_id := "msg_1"; svix_timestamp := "1700000000";
     svix_signature := "v1,guess" |}.

Definition plan_call (payload : value) : http_request :=
  {| req_headers := [("content-type", "application/json")];
     req_body := to_json payload |}.

(** A deployment whose upstream gives [answer] and whose store works or
    not. *)
Definition generator (answer : result fetch_response) (fails : bool) : Runtime :=
  runtime {| secret := Some "whsec_demo"; upstream := answer; store_fails := fails |}.

Definition created_event : value := event "user.created" (user_data [ada_email]).

Definition deleted_event : value := event "user.deleted" (VObj [("id", VStr "user_1")]).

Definition orphan_event : value := event "user.updated" (user_data []).

Definition summer_request : value := plan_request [("name", VStr "Summer cut")].

Definition unnamed_request : value := plan_request [("name", VStr "")].

(** Signature header absent. *)
Definition unsigned : list (string * string) :=
  [("svix-id", "msg_1"); ("svix-timestamp", "1700000000")].

(** Signature header present and empty. *)
Definition blank_signature : list (string * string) :=
  [("svix-id", "msg_1"); ("svix-timestamp", "1700000000");
   ("svix-signature", "")].


End Demo.

(** ** Vocabulary of the properties *)

(** The three parts of what running a handler gives. *)
Definition response_of {R : Runtime} {A : Type} (x : result A * store R) : result A :=
  fst x.

Definition world_of {R : Runtime} {A : Type} (x : result A * store R) : World R :=
  fst (snd x).

Definition trace_of {R : Runtime} {A : Type} (x : result A * store R) : trace :=
  snd (snd x).

(** The deployment has a webhook secret: the guard of lines 14-17 passes. *)
Definition configured (R : Runtime) (secret : string) : Prop :=
  process_env R "CLERK_WEBHOOK_SECRET" = Some secret /\ secret <> "".

(** The value of a header the request carries; [None] when the header is
    absent or empty, the two cases the test [!h] of line 23 rejects. *)
Definition header_value (request : http_request) (name : string) : option string :=
  nonempty (lookup name (req_headers request)).

Definition carries (request : http_request) (h : svix_headers) : Prop :=
  header_value request "svix-id" = Some (svix_id h)
  /\ header_value request "svix-timestamp" = Some (svix_timestamp h)
  /\ header_value request "svix-signature" = Some (svix_signature h).

Definition lacks_a_header (request : http_request) : Prop :=
  header_value request "svix-id" = None
  \/ header_value request "svix-timestamp" = None
  \/ header_value request "svix-signature" = None.

(** What the handler has done when it gets the answer of [wh.verify]. *)
Definition up_to_verify (secret : string) (h : svix_headers) (text : string) : trace :=
  [HeaderGet "svix-id"; HeaderGet "svix-signature"; HeaderGet "svix-timestamp";
   BodyJson; WebhookNew secret; Verify text h].

(** The request reaches signature verification from world [w], and
    verification ends as [outcome]: the event, or a throw. *)
Definition verification (R : Runtime) (w : World R) (request : http_request)
  (outcome : result value) : Prop :=
  exists secret h payload wh,
    configured R secret
    /\ carries request h
    /\ JSON_parse R (req_body request) = inr payload
    /\ Webhook_new R secret = inr wh
    /\ Webhook_verify R wh (JSON_stringify R payload) h w = outcome.

(** The event's [type] is one of the two the dispatcher acts on. *)
Definition user_event (type : value) : Prop :=
  type = VStr "user.created" \/ type = VStr "user.updated".

(** A first or last name: the string [s], or missing ([null], [undefined])
    and then counted as the empty string. *)
Definition name_part (v : value) (s : string) : Prop :=
  v = VStr s \/ ((v = VNull \/ v = VUndefined) /\ s = "").

(** The request's body parses to [payload], the upstream is called with it
    from world [w] and answers status [code] with body [text], leaving the
    world as [w']. *)
Definition upstream_answers (R : Runtime) (w : World R) (request : http_request)
  (payload : value) (code : nat) (text : string) (w' : World R) : Prop :=
  JSON_parse R (req_body request) = inr payload
  /\ exists response,
       fetch R pythonApiUrl
         {| fi_method := "POST";
            fi_headers := [("Content-Type", "application/json")];
            fi_body := JSON_stringify R payload |} w = (inr response, w')
       /\ fr_status response = code
       /\ fr_text response = inr text.

Definition is_2xx (code : nat) : Prop := 200 <= code <= 299.

(** What the plan handler has done when it has the upstream's answer. *)
Definition up_to_answer (R : Runtime) (payload : value) : trace :=
  [BodyJson;
   Fetch pythonApiUrl
     {| fi_method := "POST";
        fi_headers := [("Content-Type", "application/json")];
        fi_body := JSON_stringify R payload |};
   ResponseText].

(** [result.success && result.data && result.data.success] holds, read
    the way JavaScript tests it. *)
Definition double_success_holds (result : value) : Prop :=
  exists success data inner,
    get_prop result "success" = inr success /\ truthy success = true
    /\ get_prop result "data" = inr data /\ truthy data = true
    /\ get_prop data "success" = inr inner /\ truthy inner = true.

(** The record handed to [createPlan]. *)
Definition plan_record (userId dietPlan workoutPlan name : value) : value :=
  VObj [("userId", userId); ("dietPlan", dietPlan); ("isActive", VBool true);
        ("workoutPlan", workoutPlan); ("name", name)].

(** The body of the handler's own failure answer. *)
Definition failure_payload (R : Runtime) (message : string) : string :=
  JSON_stringify R (VObj [("success", VBool false); ("error", VStr message)]).

(** The first address's [email_address], as lines 49 and 68 read it. *)
Definition first_email (data : value) : result value :=
  match get_prop data "email_addresses" with
  | inr addresses =>
      match get_index addresses 0 with
      | inr address => get_prop address "email_address"
      | inl e => inl e
      end
  | inl e => inl e
  end.

(** The arguments of the two sync operations, as the handler lays them
    out. *)
Definition syncUser_args (R : Runtime) (email first_name last_name image_url id : value)
  : value :=
  VObj [("email", email);
        ("name", VStr (full_name R first_name last_name));
        ("image", image_url); ("clerkId", id)].

Definition updateUser_args (R : Runtime) (email first_name last_name image_url id : value)
  : value :=
  VObj [("clerkId", id); ("email", email);
        ("name", VStr (full_name R first_name last_name));
        ("image", image_url)].

(** [payload.name || "Fitness Plan"]: the request's name when it is truthy,
    the default when it is absent ([undefined]) or otherwise falsy. *)
Definition plan_name (name : value) : value :=
  if truthy name then name else VStr "Fitness Plan".

(** The message of the error thrown on a non-2xx answer, line 116. *)
Definition upstream_error_message (code : nat) (text : string) : string :=
  "Python API error: " ++ dec code ++ " - " ++ text.

(** ** Facts about reading values *)

Section ValueFacts.

Lemma nonempty_Some (s : string) : s <> "" -> nonempty (Some s) = Some s.
Proof.
  intros H. unfold nonempty. destruct (String.eqb_spec s ""); congruence.
Qed.

Lemma nonempty_inv (o : option string) (s : string) :
  nonempty o = Some s -> o = Some s /\ s <> "".
Proof.
  destruct o as [x |]; simpl; [| discriminate].
  destruct (String.eqb_spec x ""); [discriminate |].
  intros H. injection H as <-. now split.
Qed.

Lemma strict_eq_str_false (v : value) (lit : string) :
  v <> VStr lit -> strict_eq_str v lit = false.
Proof.
  intros H. destruct v; simpl; try reflexivity.
  destruct (String.eqb_spec s lit); [subst; contradiction | reflexivity].
Qed.

Lemma strict_eq_str_true (v : value) (lit : string) :
  strict_eq_str v lit = true -> v = VStr lit.
Proof.
  destruct v; simpl; try discriminate.
  intros H. apply String.eqb_eq in H. now subst.
Qed.

(** A value one property of which can be read can be destructured, and
    all its properties can be read. *)
Lemma readable (v : value) (k : string) (x : value) :
  get_prop v k = inr x ->
  (forall a b, destructurable a b v = inr tt)
  /\ (forall k', exists y, get_prop v k' = inr y).
Proof.
  destruct v; simpl; try discriminate; intros _; split; intros;
    try (eexists; reflexivity); try reflexivity.
  destruct (lookup k' props); eexists; reflexivity.
Qed.

Lemma unreadable (v : value) (k : string) (e : exn) :
  get_prop v k = inl e -> v = VNull \/ v = VUndefined.
Proof.
  destruct v; simpl; try discriminate; auto.
  destruct (lookup k props); discriminate.
Qed.

Lemma truthy_readable (v : value) (k : string) :
  truthy v = true -> exists y, get_prop v k = inr y.
Proof.
  destruct v; simpl; try discriminate; intros _; try (eexists; reflexivity).
  destruct (lookup k props); eexists; reflexivity.
Qed.

(** Only an object has a property that reads as something other than
    [undefined]. *)
Lemma has_property_truthy (v x : value) (k : string) :
  get_prop v k = inr x -> x <> VUndefined -> truthy v = true.
Proof.
  destruct v; simpl; try discriminate; try congruence; reflexivity.
Qed.

(** The plan's name: the request's own when truthy, the default when the
    field is absent or holds a falsy value. *)
Lemma plan_name_truthy (name : value) :
  truthy name = true -> plan_name name = name.
Proof. intros H. unfold plan_name. now rewrite H. Qed.

Lemma plan_name_absent (props : list (string * value)) :
  lookup "name" props = None ->
  exists name,
    get_prop (VObj props) "name" = inr name
    /\ plan_name name = VStr "Fitness Plan".
Proof.
  intros H. exists VUndefined. simpl. rewrite H. split; reflexivity.
Qed.

Example plan_name_falsy :
  plan_name (VStr "") = VStr "Fitness Plan"
  /\ plan_name VNull = VStr "Fitness Plan"
  /\ plan_name (VBool false) = VStr "Fitness Plan".
Proof. repeat split. Qed.

(** [trim] on a few names. *)
Example trim_inner_blanks_stay : trim "  Ada  Lovelace " = "Ada  Lovelace".
Proof. reflexivity. Qed.

Example trim_only_blanks : trim "   " = "".
Proof. reflexivity. Qed.

Example trim_ideographic_space :
  trim (bytes [227; 128; 128] ++ "Ada" ++ bytes [194; 160]) = "Ada".
Proof. reflexivity. Qed.

Example truthy_zero : truthy (VNum 0%float) = false /\ truthy (VNum (-0)%float) = false.
Proof. split; reflexivity. Qed.

Example truthy_empty_object : truthy (VObj []) = true.
Proof. reflexivity. Qed.

Example set_prop_keeps_place :
  set_prop [("planId", VNull); ("success", VBool true)] "planId" (VStr "doc_1")
  = [("planId", VStr "doc_1"); ("success", VBool true)].
Proof. reflexivity. Qed.

End ValueFacts.

(** ** Properties of the webhook route *)

Section WebhookProperties.

Variable R : Runtime.

(** Up to the answer of [wh.verify] the handler is a straight line. *)
Lemma run_to_verify (w : World R) (request : http_request) (secret : string)
  (h : svix_headers) (payload : value) (wh : Webhook R) :
  configured R secret ->
  carries request h ->
  JSON_parse R (req_body request) = inr payload ->
  Webhook_new R secret = inr wh ->
  run (clerk_webhook R request) w =
    match Webhook_verify R wh (JSON_stringify R payload) h w with
    | inr evt =>
        dispatch R evt (w, up_to_verify secret h (JSON_stringify R payload))
    | inl _ =>
        (inr (text_response "Error occurred" 400),
         (w, up_to_verify secret h (JSON_stringify R payload)))
    end.
Proof.
  intros [Hs Hne] (Hid & Hts & Hsig) Hp Hw.
  unfold header_value in *.
  unfold run, clerk_webhook. rewrite Hs, (nonempty_Some _ Hne).
  unfold headers_get, request_json, new_Webhook, wh_verify, attempt, bind, emit,
    lift, ret. simpl.
  rewrite Hid, Hsig, Hts, Hp. simpl. rewrite Hw. simpl.
  destruct h as [i t s]; simpl.
  destruct (Webhook_verify R wh (JSON_stringify R payload)
              {| svix_id := i; svix_timestamp := t; svix_signature := s |} w);
    reflexivity.
Qed.

Ltac by_cases_on_reads :=
  repeat match goal with
         | |- context [match get_prop ?v ?k with _ => _ end] =>
             destruct (get_prop v k) eqn:?; simpl
         | |- context [match get_index ?v ?k with _ => _ end] =>
             destruct (get_index v k) eqn:?; simpl
         | |- context [match destructurable ?a ?b ?v with _ => _ end] =>
             destruct (destructurable a b v) eqn:?; simpl
         end.

Ltac rewrite_reads :=
  repeat match goal with
         | H : get_prop _ _ = _ |- _ => rewrite H
         | H : get_index _ _ = _ |- _ => rewrite H
         end.

Ltac split_mutation w :=
  match goal with
  | |- context [runMutation R ?f ?a w] =>
      destruct (runMutation R f a w) as [[?|?] ?]
  | H : context [runMutation R ?f ?a w] |- _ =>
      destruct (runMutation R f a w) as [[?|?] ?]
  end.

(** A branch either throws while reading the event, having done nothing,
    or calls its mutation once. *)
Lemma on_user_created_cases (evt : value) (w : World R) (t : trace) :
  (exists e, on_user_created R evt (w, t) = (inl e, (w, t)))
  \/ (exists data email id first last image,
        get_prop evt "data" = inr data
        /\ first_email data = inr email
        /\ get_prop data "id" = inr id
        /\ get_prop data "first_name" = inr first
        /\ get_prop data "last_name" = inr last
        /\ get_prop data "image_url" = inr image
        /\ on_user_created R evt (w, t) =
             (let args := syncUser_args R email first last image id in
              (match fst (runMutation R api_users_syncUser args w) with
               | inr _ => inr None
               | inl _ => inr (Some (text_response "Error creating user" 500))
               end,
               (snd (runMutation R api_users_syncUser args w),
                t ++ [Mutation api_users_syncUser args])))).
Proof.
  unfold on_user_created, first_email, syncUser_args, ctx_runMutation, attempt,
    bind, lift, emit, ret.
  by_cases_on_reads; try (left; eexists; reflexivity).
  right. do 6 eexists. split; [reflexivity|]. rewrite_reads.
  repeat (split; [reflexivity|]).
  split_mutation w; reflexivity.
Qed.

Lemma on_user_updated_cases (evt : value) (w : World R) (t : trace) :
  (exists e, on_user_updated R evt (w, t) = (inl e, (w, t)))
  \/ (exists data email id first last image,
        get_prop evt "data" = inr data
        /\ first_email data = inr email
        /\ get_prop data "id" = inr id
        /\ get_prop data "first_name" = inr first
        /\ get_prop data "last_name" = inr last
        /\ get_prop data "image_url" = inr image
        /\ on_user_updated R evt (w, t) =
             (let args := updateUser_args R email first last image id in
              (match fst (runMutation R api_users_updateUser args w) with
               | inr _ => inr None
               | inl _ => inr (Some (text_response "Error updating user" 500))
               end,
               (snd (runMutation R api_users_updateUser args w),
                t ++ [Mutation api_users_updateUser args])))).
Proof.
  unfold on_user_updated, first_email, updateUser_args, ctx_runMutation, attempt,
    bind, lift, emit, ret.
  by_cases_on_reads; try (left; eexists; reflexivity).
  right. do 6 eexists. split; [reflexivity|]. rewrite_reads.
  repeat (split; [reflexivity|]).
  split_mutation w; reflexivity.
Qed.

(** How the dispatcher goes on from each kind of event. *)
Lemma dispatch_created (evt : value) (s : store R) :
  get_prop evt "type" = inr (VStr "user.created") ->
  dispatch R evt s =
    match on_user_created R evt s with
    | (inr (Some response), s') => (inr response, s')
    | (inr None, s') =>
        (inr (text_response "Webhooks processed successfully" 200), s')
    | (inl e, s') => (inl e, s')
    end.
Proof.
  intros H. unfold dispatch, bind, lift, ret. rewrite H. simpl.
  destruct (on_user_created R evt s) as [[e | [r |]] s']; reflexivity.
Qed.

Lemma dispatch_updated (evt : value) (s : store R) :
  get_prop evt "type" = inr (VStr "user.updated") ->
  dispatch R evt s =
    match on_user_updated R evt s with
    | (inr (Some response), s') => (inr response, s')
    | (inr None, s') =>
        (inr (text_response "Webhooks processed successfully" 200), s')
    | (inl e, s') => (inl e, s')
    end.
Proof.
  intros H. unfold dispatch, bind, lift, ret. rewrite H. simpl.
  destruct (on_user_updated R evt s) as [[e | [r |]] s']; reflexivity.
Qed.

Lemma dispatch_other (evt type : value) (s : store R) :
  get_prop evt "type" = inr type ->
  type <> VStr "user.created" ->
  type <> VStr "user.updated" ->
  dispatch R evt s =
    (inr (text_response "Webhooks processed successfully" 200), s).
Proof.
  intros H Hc Hu. unfold dispatch, bind, lift, ret. rewrite H.
  rewrite (strict_eq_str_false _ _ Hc), (strict_eq_str_false _ _ Hu).
  reflexivity.
Qed.

Lemma dispatch_unreadable (evt : value) (e : exn) (s : store R) :
  get_prop evt "type" = inl e -> dispatch R evt s = (inl e, s).
Proof.
  intros H. unfold dispatch, bind, lift. rewrite H. reflexivity.
Qed.

(** Whatever the event, the dispatcher adds at most one effect to the
    trace, and that effect is a mutation. *)
Lemma dispatch_adds_mutations (evt : value) (w : World R) (t : trace) :
  exists added,
    trace_of (dispatch R evt (w, t)) = t ++ added
    /\ Forall (fun e => is_mutation e = true) added.
Proof.
  destruct (get_prop evt "type") as [e | type] eqn:Htype.
  - exists []. rewrite (dispatch_unreadable _ _ _ Htype).
    split; [symmetry; apply app_nil_r | constructor].
  - destruct (strict_eq_str type "user.created") eqn:Hc.
    + apply strict_eq_str_true in Hc. subst type.
      rewrite (dispatch_created _ _ Htype).
      destruct (on_user_created_cases evt w t)
        as [(e & ->) | (d & em & i & f & l & im & _ & _ & _ & _ & _ & _ & ->)].
      * exists []. split; [symmetry; apply app_nil_r | constructor].
      * eexists. cbv zeta. split_mutation w; simpl;
          (split; [reflexivity | repeat constructor]).
    + destruct (strict_eq_str type "user.updated") eqn:Hu.
      * apply strict_eq_str_true in Hu. subst type.
        rewrite (dispatch_updated _ _ Htype).
        destruct (on_user_updated_cases evt w t)
          as [(e & ->) | (d & em & i & f & l & im & _ & _ & _ & _ & _ & _ & ->)].
        -- exists []. split; [symmetry; apply app_nil_r | constructor].
        -- eexists. cbv zeta. split_mutation w; simpl;
             (split; [reflexivity | repeat constructor]).
      * exists []. unfold dispatch, bind, lift, ret. rewrite Htype, Hc, Hu.
        split; [symmetry; apply app_nil_r | constructor].
Qed.

Lemma verifications_of_mutations (added : list effect) :
  Forall (fun e => is_mutation e = true) added -> verifications added = [].
Proof.
  induction 1 as [| e rest He _ IH]; [reflexivity |].
  destruct e; try discriminate. exact IH.
Qed.

(** When a header is missing the handler stops after reading the headers,
    or before, at the secret guard. *)
Lemma run_without_header (w : World R) (request : http_request) :
  lacks_a_header request ->
  run (clerk_webhook R request) w =
    match nonempty (process_env R "CLERK_WEBHOOK_SECRET") with
    | None =>
        (inl (JsError "Error" "Missing CLERK_WEBHOOK_SECRET environment variable"),
         (w, []))
    | Some _ =>
        (inr (text_response "No svix headers found" 400),
         (w, [HeaderGet "svix-id"; HeaderGet "svix-signature";
              HeaderGet "svix-timestamp"]))
    end.
Proof.
  intros H. unfold run, clerk_webhook, lacks_a_header, header_value in *.
  destruct (nonempty (process_env R "CLERK_WEBHOOK_SECRET")); [| reflexivity].
  unfold headers_get, bind, emit, ret. simpl.
  destruct H as [H | [H | H]]; rewrite H;
    repeat match goal with
           | |- context [match nonempty ?o with _ => _ end] => destruct (nonempty o)
           end; reflexivity.
Qed.

(** In every run the verifier is called at most once, and what it is given
    is the re-serialised parsed body. *)
Lemma webhook_verifications (w : World R) (request : http_request) :
  verifications (trace_of (run (clerk_webhook R request) w)) = []
  \/ exists payload h,
       JSON_parse R (req_body request) = inr payload
       /\ verifications (trace_of (run (clerk_webhook R request) w))
          = [Verify (JSON_stringify R payload) h].
Proof.
  destruct (nonempty (process_env R "CLERK_WEBHOOK_SECRET")) as [secret |] eqn:Hs.
  2:{ left. unfold run, clerk_webhook. rewrite Hs. reflexivity. }
  destruct (header_value request "svix-id") as [i |] eqn:Hi.
  2:{ left. rewrite run_without_header, Hs by (left; exact Hi). reflexivity. }
  destruct (header_value request "svix-timestamp") as [ts |] eqn:Ht.
  2:{ left. rewrite run_without_header, Hs by (right; left; exact Ht). reflexivity. }
  destruct (header_value request "svix-signature") as [sg |] eqn:Hg.
  2:{ left. rewrite run_without_header, Hs by (right; right; exact Hg). reflexivity. }
  destruct (JSON_parse R (req_body request)) as [e | payload] eqn:Hp.
  { left. unfold run, clerk_webhook, header_value in *. rewrite Hs.
    unfold headers_get, request_json, bind, emit, lift, ret. simpl.
    rewrite Hi, Hg, Ht, Hp. reflexivity. }
  destruct (Webhook_new R secret) as [e | wh] eqn:Hw.
  { left. unfold run, clerk_webhook, header_value in *. rewrite Hs.
    unfold headers_get, request_json, new_Webhook, bind, emit, lift, ret. simpl.
    rewrite Hi, Hg, Ht, Hp. simpl. rewrite Hw. reflexivity. }
  right. exists payload.
  exists {| svix_id := i; svix_timestamp := ts; svix_signature := sg |}.
  split; [reflexivity |].
  rewrite (run_to_verify w request secret
             {| svix_id := i; svix_timestamp := ts; svix_signature := sg |}
             payload wh);
    [| exact (nonempty_inv _ _ Hs) | repeat split; assumption | assumption
     | assumption].
  destruct (Webhook_verify R wh _ _ w) as [e | evt]; [reflexivity |].
  destruct (dispatch_adds_mutations evt w
              (up_to_verify secret
                 {| svix_id := i; svix_timestamp := ts; svix_signature := sg |}
                 (JSON_stringify R payload))) as (added & -> & Hadd).
  unfold verifications. rewrite filter_app.
  fold (verifications added). rewrite (verifications_of_mutations _ Hadd).
  reflexivity.
Qed.

(** C8 - When [CLERK_WEBHOOK_SECRET] is absent from the environment the
    webhook handler throws its configuration error as its first step: no
    header has been read, the body has not been parsed, nothing has been
    verified and no mutation has run (the trace is empty and the world is
    untouched). *)
Theorem missing_secret_throws_first (w : World R) (request : http_request) :
  process_env R "CLERK_WEBHOOK_SECRET" = None ->
  run (clerk_webhook R request) w =
    (inl (JsError "Error" "Missing CLERK_WEBHOOK_SECRET environment variable"),
     (w, [])).
Proof.
  intros H. unfold run, clerk_webhook. rewrite H. reflexivity.
Qed.

(** C3 (amended) - A webhook request that lacks one of [svix-id],
    [svix-timestamp], [svix-signature] (absent, or present and empty) never
    leads to a mutation; and when the webhook secret is configured the
    answer is HTTP 400, [No svix headers found]. *)
Theorem missing_header_is_rejected (w : World R) (request : http_request) :
  lacks_a_header request ->
  mutations (trace_of (run (clerk_webhook R request) w)) = []
  /\ forall secret,
       configured R secret ->
       response_of (run (clerk_webhook R request) w)
       = inr (text_response "No svix headers found" 400).
Proof.
  intros H. rewrite (run_without_header w request H). split.
  - destruct (nonempty (process_env R "CLERK_WEBHOOK_SECRET")); reflexivity.
  - intros secret [Hs Hne]. rewrite Hs, (nonempty_Some _ Hne). reflexivity.
Qed.

(** C4 (amended) - When a request reaches signature verification (the
    secret set and accepted by [new Webhook], all three svix headers
    carried, the body valid JSON) and verification throws, the answer is
    HTTP 400, whatever the body parsed to, and no mutation has run. *)
Theorem failed_verification_is_rejected (w : World R) (request : http_request)
  (e : exn) :
  verification R w request (inl e) ->
  response_of (run (clerk_webhook R request) w)
  = inr (text_response "Error occurred" 400)
  /\ mutations (trace_of (run (clerk_webhook R request) w)) = []
  /\ world_of (run (clerk_webhook R request) w) = w.
Proof.
  intros (secret & h & payload & wh & Hc & Hh & Hp & Hw & Hv).
  rewrite (run_to_verify w request secret h payload wh Hc Hh Hp Hw), Hv.
  repeat split.
Qed.

(** C7 - A verified event whose [type] is neither [user.created] nor
    [user.updated] runs no mutation, leaves the world as it was, and is
    answered HTTP 200, [Webhooks processed successfully]. *)
Theorem other_event_is_acknowledged (w : World R) (request : http_request)
  (evt type : value) :
  verification R w request (inr evt) ->
  get_prop evt "type" = inr type ->
  type <> VStr "user.created" ->
  type <> VStr "user.updated" ->
  response_of (run (clerk_webhook R request) w)
  = inr (text_response "Webhooks processed successfully" 200)
  /\ mutations (trace_of (run (clerk_webhook R request) w)) = []
  /\ world_of (run (clerk_webhook R request) w) = w.
Proof.
  intros (secret & h & payload & wh & Hc & Hh & Hp & Hw & Hv) Htype Hcr Hup.
  rewrite (run_to_verify w request secret h payload wh Hc Hh Hp Hw), Hv.
  rewrite (dispatch_other evt type _ Htype Hcr Hup).
  repeat split.
Qed.

Lemma name_part_to_string (v : value) (s : string) :
  name_part v s ->
  to_string (number_to_string R) (or_else v (VStr "")) = s.
Proof.
  intros [-> | [[-> | ->] ->]]; try reflexivity.
  unfold or_else. simpl. destruct (String.eqb_spec s ""); simpl; congruence.
Qed.

Lemma full_name_of_parts (first last : value) (f l : string) :
  name_part first f -> name_part last l ->
  full_name R first last = trim (f ++ " " ++ l).
Proof.
  intros Hf Hl. unfold full_name.
  now rewrite (name_part_to_string _ _ Hf), (name_part_to_string _ _ Hl).
Qed.

(** The create branch on an event whose data and first e-mail address can
    be read: one call of [syncUser]. *)
Lemma on_user_created_runs (evt data email id first last image : value)
  (w : World R) (t : trace) :
  get_prop evt "data" = inr data ->
  first_email data = inr email ->
  get_prop data "id" = inr id ->
  get_prop data "first_name" = inr first ->
  get_prop data "last_name" = inr last ->
  get_prop data "image_url" = inr image ->
  on_user_created R evt (w, t) =
    (let args := syncUser_args R email first last image id in
     (match fst (runMutation R api_users_syncUser args w) with
      | inr _ => inr None
      | inl _ => inr (Some (text_response "Error creating user" 500))
      end,
      (snd (runMutation R api_users_syncUser args w),
       t ++ [Mutation api_users_syncUser args]))).
Proof.
  intros Hd He Hi Hf Hl Him.
  destruct (readable _ _ _ Hi) as [Hdes _].
  unfold first_email in He.
  destruct (get_prop data "email_addresses") as [| addresses] eqn:Ha;
    [discriminate |].
  destruct (get_index addresses 0) as [| address] eqn:Hx; [discriminate |].
  unfold on_user_created, syncUser_args, ctx_runMutation, attempt, bind, lift,
    emit, ret.
  rewrite Hd, Hdes, Hi, Hf, Hl, Him, Ha, Hx, He. simpl.
  split_mutation w; reflexivity.
Qed.

(** Either branch on an event whose list of e-mail addresses is empty:
    reading [email_address] of [undefined] throws, with nothing done. *)
Lemma on_user_created_no_address (evt data : value) (s : store R) :
  get_prop evt "data" = inr data ->
  get_prop data "email_addresses" = inr (VArr []) ->
  on_user_created R evt s = (inl (type_error_read "undefined" "email_address"), s).
Proof.
  intros Hd Ha. destruct (readable _ _ _ Ha) as [Hdes Hall].
  destruct (Hall "id") as [? Hi], (Hall "first_name") as [? Hf],
    (Hall "last_name") as [? Hl], (Hall "image_url") as [? Him].
  unfold on_user_created, bind, lift.
  rewrite Hd, Hdes, Hi, Hf, Hl, Him, Ha. reflexivity.
Qed.

Lemma on_user_updated_no_address (evt data : value) (s : store R) :
  get_prop evt "data" = inr data ->
  get_prop data "email_addresses" = inr (VArr []) ->
  on_user_updated R evt s = (inl (type_error_read "undefined" "email_address"), s).
Proof.
  intros Hd Ha. destruct (readable _ _ _ Ha) as [Hdes Hall].
  destruct (Hall "id") as [? Hi], (Hall "first_name") as [? Hf],
    (Hall "last_name") as [? Hl], (Hall "image_url") as [? Him].
  unfold on_user_updated, bind, lift.
  rewrite Hd, Hdes, Hi, Hf, Hl, Him, Ha. reflexivity.
Qed.

(** C5 - For a verified [user.created] event whose first and last name
    are strings or missing ([null], [undefined]), the only mutation the
    handler can call is [syncUser], and the [name] it passes is the trim of
    first name, one space, last name, a missing part counting as the empty
    string.  When the first e-mail address of the event can be read, that
    call is made, exactly once. *)
Theorem created_user_name_is_trimmed_full_name (w : World R)
  (request : http_request) (evt data first last : value) (f l : string) :
  verification R w request (inr evt) ->
  get_prop evt "type" = inr (VStr "user.created") ->
  get_prop evt "data" = inr data ->
  get_prop data "first_name" = inr first ->
  get_prop data "last_name" = inr last ->
  name_part first f ->
  name_part last l ->
  (forall fn args,
      In (Mutation fn args) (trace_of (run (clerk_webhook R request) w)) ->
      fn = api_users_syncUser
      /\ get_prop args "name" = inr (VStr (trim (f ++ " " ++ l))))
  /\ (forall email,
        first_email data = inr email ->
        exists image id,
          mutations (trace_of (run (clerk_webhook R request) w))
          = [Mutation api_users_syncUser
               (VObj [("email", email);
                      ("name", VStr (trim (f ++ " " ++ l)));
                      ("image", image); ("clerkId", id)])]).
Proof.
  intros (secret & h & payload & wh & Hc & Hh & Hp & Hw & Hv)
    Htype Hd Hf Hl Hnf Hnl.
  rewrite (run_to_verify w request secret h payload wh Hc Hh Hp Hw), Hv.
  rewrite (dispatch_created _ _ Htype).
  pose proof (full_name_of_parts _ _ _ _ Hnf Hnl) as Hname.
  split.
  - intros fn args Hin.
    destruct (on_user_created_cases evt w
                (up_to_verify secret h (JSON_stringify R payload)))
      as [(e & Hrun)
         | (d & em & i & f' & l' & im & Hd' & _ & _ & Hf' & Hl' & _ & Hrun)];
      rewrite Hrun in Hin.
    + simpl in Hin. repeat destruct Hin as [Hin | Hin]; try discriminate.
      contradiction.
    + assert (d = data) by congruence. subst d.
      assert (f' = first) by congruence. assert (l' = last) by congruence.
      subst f' l'. cbv zeta in Hin.
      split_mutation w; simpl in Hin;
        repeat destruct Hin as [Hin | Hin]; try discriminate;
        try contradiction;
        injection Hin as <- <-; (split; [reflexivity |]);
        unfold syncUser_args; simpl; now rewrite Hname.
  - intros email He.
    destruct (readable _ _ _ Hf) as [_ Hall].
    destruct (Hall "id") as [id Hi], (Hall "image_url") as [image Him].
    exists image, id.
    rewrite (on_user_created_runs evt data email id first last image w _
               Hd He Hi Hf Hl Him).
    cbv zeta. unfold syncUser_args. rewrite Hname.
    split_mutation w; reflexivity.
Qed.

(** C9 - For a verified [user.created] or [user.updated] event whose
    [data.email_addresses] is the empty list, the handler returns no
    response at all: it throws the [TypeError] of reading [email_address]
    of [undefined], and no mutation has run. *)
Theorem empty_email_list_throws (w : World R) (request : http_request)
  (evt type data : value) :
  verification R w request (inr evt) ->
  get_prop evt "type" = inr type ->
  user_event type ->
  get_prop evt "data" = inr data ->
  get_prop data "email_addresses" = inr (VArr []) ->
  response_of (run (clerk_webhook R request) w)
  = inl (JsError "TypeError"
           "Cannot read properties of undefined (reading 'email_address')")
  /\ mutations (trace_of (run (clerk_webhook R request) w)) = []
  /\ world_of (run (clerk_webhook R request) w) = w.
Proof.
  intros (secret & h & payload & wh & Hc & Hh & Hp & Hw & Hv) Htype Hev Hd Ha.
  rewrite (run_to_verify w request secret h payload wh Hc Hh Hp Hw), Hv.
  destruct Hev as [-> | ->].
  - rewrite (dispatch_created _ _ Htype),
      (on_user_created_no_address _ _ _ Hd Ha). repeat split.
  - rewrite (dispatch_updated _ _ Htype),
      (on_user_updated_no_address _ _ _ Hd Ha). repeat split.
Qed.

(** C10 (amended) - With the webhook secret configured, a request that
    carries the three svix headers and whose body is not valid JSON makes
    the handler throw the parser's exception right after the headers are
    read: there is no response, nothing has been verified, no mutation has
    run.  And in any run at all, whatever the verifier is given is
    [JSON.stringify] of the parsed body. *)
Theorem malformed_body_throws_before_verification (w : World R)
  (request : http_request) (secret : string) (h : svix_headers) (e : exn) :
  configured R secret ->
  carries request h ->
  JSON_parse R (req_body request) = inl e ->
  run (clerk_webhook R request) w
  = (inl e,
     (w, [HeaderGet "svix-id"; HeaderGet "svix-signature";
          HeaderGet "svix-timestamp"; BodyJson]))
  /\ (forall w' request' text h',
        In (Verify text h') (trace_of (run (clerk_webhook R request') w')) ->
        exists payload,
          JSON_parse R (req_body request') = inr payload
          /\ text = JSON_stringify R payload).
Proof.
  intros [Hs Hne] (Hi & Ht & Hg) Hp. split.
  - unfold run, clerk_webhook, header_value in *.
    rewrite Hs, (nonempty_Some _ Hne).
    unfold headers_get, request_json, bind, emit, lift, ret. simpl.
    rewrite Hi, Hg, Ht, Hp. reflexivity.
  - intros w' request' text h' Hin.
    assert (Hv : In (Verify text h')
                   (verifications (trace_of (run (clerk_webhook R request') w')))).
    { apply filter_In. split; [exact Hin | reflexivity]. }
    destruct (webhook_verifications w' request')
      as [Hnone | (payload & h0 & Hparse & Hone)].
    + rewrite Hnone in Hv. contradiction.
    + rewrite Hone in Hv. destruct Hv as [Hv | []].
      injection Hv as <- _. exists payload. now split.
Qed.

End WebhookProperties.

(** ** Properties of the plan generation route *)

Section PlanProperties.

Variable R : Runtime.

Lemma fr_ok_true (r : fetch_response) : is_2xx (fr_status r) -> fr_ok r = true.
Proof.
  intros [Hlo Hhi]. unfold fr_ok.
  apply andb_true_intro. split; now apply Nat.leb_le.
Qed.

Lemma fr_ok_false (r : fetch_response) : ~ is_2xx (fr_status r) -> fr_ok r = false.
Proof.
  intros H. unfold fr_ok. apply not_true_is_false. intros Hok.
  apply andb_prop in Hok. destruct Hok as [Hlo Hhi].
  apply H. split; now apply Nat.leb_le.
Qed.

(** The handler up to the status check. *)
Lemma run_try_error_status (w w' : World R) (request : http_request)
  (payload : value) (code : nat) (text : string) :
  upstream_answers R w request payload code text w' ->
  ~ is_2xx code ->
  generate_program_try R request (w, []) =
    (inl (JsError "Error" (upstream_error_message code text)),
     (w', up_to_answer R payload)).
Proof.
  intros (Hp & response & Hf & Hc & Ht) Hno. subst code.
  unfold generate_program_try, request_json, do_fetch, response_text, bind,
    emit, lift, throw. simpl.
  rewrite Hp. simpl. rewrite Hf. simpl. rewrite Ht.
  rewrite (fr_ok_false _ Hno). reflexivity.
Qed.

Lemma run_try_2xx (w w' : World R) (request : http_request)
  (payload : value) (code : nat) (text : string) :
  upstream_answers R w request payload code text w' ->
  is_2xx code ->
  generate_program_try R request (w, []) =
    parse_and_save R payload text (w', up_to_answer R payload).
Proof.
  intros (Hp & response & Hf & Hc & Ht) Hok. subst code.
  unfold generate_program_try, request_json, do_fetch, response_text, bind,
    emit, lift. simpl.
  rewrite Hp. simpl. rewrite Hf. simpl. rewrite Ht.
  rewrite (fr_ok_true _ Hok). reflexivity.
Qed.

(** The double-success test computes [double_success_holds]. *)
Lemma double_success_true (result : value) (s : store R) :
  double_success_holds result -> double_success R result s = (inr true, s).
Proof.
  intros (success & data & inner & Hs & Ts & Hd & Td & Hi & Ti).
  unfold double_success, bind, lift, ret.
  rewrite Hs, Ts, Hd, Td, Hi, Ti. reflexivity.
Qed.

Lemma double_success_false (result success : value) (s : store R) :
  get_prop result "success" = inr success ->
  ~ double_success_holds result ->
  double_success R result s = (inr false, s).
Proof.
  intros Hs Hno. unfold double_success, bind, lift, ret. rewrite Hs.
  destruct (truthy success) eqn:Ts; [| reflexivity].
  destruct (readable _ _ _ Hs) as [_ Hall].
  destruct (Hall "data") as [data Hd]. rewrite Hd.
  destruct (truthy data) eqn:Td; [| reflexivity].
  destruct (truthy_readable data "success" Td) as [inner Hi]. rewrite Hi.
  destruct (truthy inner) eqn:Ti; [| reflexivity].
  exfalso. apply Hno. exists success, data, inner. repeat split; assumption.
Qed.

(** C6 - When the upstream answers with a status outside 200-299, the
    handler answers HTTP 500 with the JSON of
    [{success: false, error: message}], where [message] is
    [Python API error: <status> - <raw body>]; nothing is saved. *)
Theorem upstream_error_is_reported (w w' : World R) (request : http_request)
  (payload : value) (code : nat) (text : string) :
  upstream_answers R w request payload code text w' ->
  ~ is_2xx code ->
  run (generate_program R request) w =
    (inr (json_response
            (JSON_stringify R
               (VObj [("success", VBool false);
                      ("error",
                       VStr ("Python API error: " ++ dec code ++ " - " ++ text))]))
            500),
     (w', up_to_answer R payload))
  /\ mutations (trace_of (run (generate_program R request) w)) = [].
Proof.
  intros Hup Hno. unfold run, generate_program, try_catch.
  rewrite (run_try_error_status w w' request payload code text Hup Hno).
  split; reflexivity.
Qed.

(** C2 (amended) - When the upstream answers 2xx and the parsed result
    does not pass [result.success && result.data && result.data.success],
    the handler answers HTTP 500 and calls no mutation.  The body is
    [JSON.stringify(result)] for every result but [null] (and [undefined],
    which [JSON.parse] never gives): reading [success] of [null] throws, and
    the body is then the handler's failure payload with that [TypeError]'s
    message. *)
Theorem failed_result_is_returned (w w' : World R) (request : http_request)
  (payload : value) (code : nat) (text : string) (result : value) :
  upstream_answers R w request payload code text w' ->
  is_2xx code ->
  JSON_parse R text = inr result ->
  ~ double_success_holds result ->
  run (generate_program R request) w =
    (inr (json_response
            match result with
            | VNull =>
                failure_payload R "Cannot read properties of null (reading 'success')"
            | VUndefined =>
                failure_payload R
                  "Cannot read properties of undefined (reading 'success')"
            | _ => JSON_stringify R result
            end
            500),
     (w', up_to_answer R payload))
  /\ mutations (trace_of (run (generate_program R request) w)) = [].
Proof.
  intros Hup Hok Hparse Hno. unfold run, generate_program, try_catch.
  rewrite (run_try_2xx w w' request payload code text Hup Hok).
  unfold parse_and_save, try_catch, bind, lift. rewrite Hparse.
  destruct (get_prop result "success") as [e | success] eqn:Hs.
  - destruct (unreadable _ _ _ Hs) as [-> | ->]; split; reflexivity.
  - rewrite (double_success_false result success _ Hs Hno).
    destruct result; simpl in Hs; try discriminate; split; reflexivity.
Qed.

(** C1 (amended) - When the upstream answers 2xx and the parsed result has
    [result.success = true] and [result.data.success = true], the handler
    calls [createPlan], once, with the record
    [{userId: payload.user_id, dietPlan: result.data.diet_plan,
      isActive: true, workoutPlan: result.data.workout_plan, name}],
    where [name] is the request's [name] when that is truthy and
    [Fitness Plan] when it is absent or otherwise falsy.  When the mutation
    returns an id, the answer is HTTP 200 with the JSON of the result with
    [planId] set to that id; when it throws, the answer is HTTP 500 with the
    failure payload carrying the exception's message (and should the thrown
    value be no [Error] and have no string conversion, [String(error)]
    throws in the catch and the handler fails with that). *)
Theorem successful_plan_is_saved (w w' : World R) (request : http_request)
  (payload : value) (code : nat) (text : string)
  (result data diet workout user_id name : value) :
  upstream_answers R w request payload code text w' ->
  is_2xx code ->
  JSON_parse R text = inr result ->
  get_prop result "success" = inr (VBool true) ->
  get_prop result "data" = inr data ->
  get_prop data "success" = inr (VBool true) ->
  get_prop data "diet_plan" = inr diet ->
  get_prop data "workout_plan" = inr workout ->
  get_prop payload "user_id" = inr user_id ->
  get_prop payload "name" = inr name ->
  trace_of (run (generate_program R request) w)
  = up_to_answer R payload
      ++ [Mutation api_plans_createPlan
            (plan_record user_id diet workout (plan_name name))]
  /\ (forall planId w'',
        runMutation R api_plans_createPlan
          (plan_record user_id diet workout (plan_name name)) w'
        = (inr planId, w'') ->
        response_of (run (generate_program R request) w)
        = inr (json_response
                 (JSON_stringify R (VObj (set_prop (spread result) "planId" planId)))
                 200)
        /\ world_of (run (generate_program R request) w) = w'')
  /\ (forall e w'',
        runMutation R api_plans_createPlan
          (plan_record user_id diet workout (plan_name name)) w'
        = (inl e, w'') ->
        response_of (run (generate_program R request) w)
        = match error_message (number_to_string R) e with
          | inr message => inr (json_response (failure_payload R message) 500)
          | inl raised => inl raised
          end).
Proof.
  intros Hup Hok Hparse Hs Hd Hi Hdiet Hwork Huser Hname.
  assert (Hds : double_success_holds result).
  { exists (VBool true), data, (VBool true). repeat split; try assumption.
    apply (has_property_truthy data (VBool true) "success" Hi). discriminate. }
  assert (Hrun : run (generate_program R request) w =
    match runMutation R api_plans_createPlan
            (plan_record user_id diet workout (plan_name name)) w' with
    | (inr planId, w'') =>
        (inr (json_response
                (JSON_stringify R (VObj (set_prop (spread result) "planId" planId)))
                200),
         (w'', up_to_answer R payload
                 ++ [Mutation api_plans_createPlan
                       (plan_record user_id diet workout (plan_name name))]))
    | (inl e, w'') =>
        (match error_message (number_to_string R) e with
         | inr message => inr (json_response (failure_payload R message) 500)
         | inl raised => inl raised
         end,
         (w'', up_to_answer R payload
                 ++ [Mutation api_plans_createPlan
                       (plan_record user_id diet workout (plan_name name))]))
    end).
  { unfold run, generate_program, try_catch.
    rewrite (run_try_2xx w w' request payload code text Hup Hok).
    unfold parse_and_save, try_catch, bind, lift. rewrite Hparse.
    rewrite (double_success_true result _ Hds).
    rewrite Huser, Hd, Hdiet, Hwork, Hname.
    unfold ctx_runMutation, bind, emit, ret, plan_record, plan_name, or_else.
    simpl.
    destruct (runMutation R api_plans_createPlan _ w') as [[e | planId] w''];
      [| reflexivity].
    destruct (error_message (number_to_string R) e); reflexivity. }
  rewrite Hrun. split; [| split].
  - destruct (runMutation R api_plans_createPlan _ w') as [[e | planId] w''];
      reflexivity.
  - intros planId w'' Hm. rewrite Hm. split; reflexivity.
  - intros e w'' Hm. rewrite Hm. reflexivity.
Qed.

End PlanProperties.

(** ** The handlers at work *)

Section Runs.

Import Demo.

Lemma demo_configured : configured with_secret "whsec_demo".
Proof. split; [reflexivity | discriminate]. Defined.

Lemma demo_signed (text : string) :
  carries (webhook_request signed text) signed_headers.
Proof. repeat split. Defined.

Lemma demo_forged (text : string) :
  carries (webhook_request forged text) forged_headers.
Proof. repeat split. Defined.

(** A signed event gets through verification. *)
Lemma demo_verified (evt : value) :
  parse (to_json evt) = inr evt ->
  verification with_secret 0 (webhook_request signed (to_json evt)) (inr evt).
Proof.
  intros H. exists "whsec_demo", signed_headers, evt, "whsec_demo".
  split; [exact demo_configured |]. split; [apply demo_signed |].
  split; [exact H |]. split; [reflexivity |]. exact H.
Defined.

Lemma demo_answers (code : nat) (text : string) (fails : bool) (payload : value) :
  parse (to_json payload) = inr payload ->
  upstream_answers (generator (answers code text) fails) 0 (plan_call payload)
    payload code text 0.
Proof.
  intros H. split; [exact H |].
  exists {| fr_status := code; fr_text := inr text |}. repeat split.
Defined.

Lemma parse_created : parse (to_json created_event) = inr created_event.
Proof. reflexivity. Defined.

Lemma parse_deleted : parse (to_json deleted_event) = inr deleted_event.
Proof. reflexivity. Defined.

Lemma parse_summer : parse (to_json summer_request) = inr summer_request.
Proof. reflexivity. Defined.

(** *** The webhook route *)

(** Witness of C8: no secret, a well-signed event. *)
Lemma missing_secret_throws_first_run :
  process_env without_secret "CLERK_WEBHOOK_SECRET" = None
  /\ run (clerk_webhook without_secret
            (webhook_request signed (to_json created_event))) 0
     = (inl (JsError "Error" "Missing CLERK_WEBHOOK_SECRET environment variable"),
        (0, [])).
Proof.
  split; [reflexivity |].
  apply (missing_secret_throws_first without_secret). reflexivity.
Defined.

Lemma unsigned_lacks (text : string) :
  lacks_a_header (webhook_request unsigned text).
Proof. right; right; reflexivity. Defined.

(** Witness of C3 (amended): the signature header is absent. *)
Lemma missing_header_is_rejected_run :
  lacks_a_header (webhook_request unsigned (to_json created_event))
  /\ configured with_secret "whsec_demo"
  /\ mutations
       (trace_of (run (clerk_webhook with_secret
                         (webhook_request unsigned (to_json created_event))) 0))
     = []
  /\ response_of
       (run (clerk_webhook with_secret
               (webhook_request unsigned (to_json created_event))) 0)
     = inr (text_response "No svix headers found" 400).
Proof.
  split; [apply unsigned_lacks |]. split; [exact demo_configured |].
  destruct (missing_header_is_rejected with_secret 0
              (webhook_request unsigned (to_json created_event))
              (unsigned_lacks _)) as [Hm Hr].
  split; [exact Hm | exact (Hr _ demo_configured)].
Defined.

(** Counterexample to C3 as stated: with a header absent and no secret in the
    environment, the handler throws; it does not answer 400. *)
Lemma missing_header_without_secret_throws :
  lacks_a_header (webhook_request unsigned (to_json created_event))
  /\ run (clerk_webhook without_secret
            (webhook_request unsigned (to_json created_event))) 0
     = (inl (JsError "Error" "Missing CLERK_WEBHOOK_SECRET environment variable"),
        (0, []))
  /\ ~ (exists response,
          response_of
            (run (clerk_webhook without_secret
                    (webhook_request unsigned (to_json created_event))) 0)
          = inr response
          /\ status response = 400).
Proof.
  split; [apply unsigned_lacks |]. split; [reflexivity |].
  intros (response & H & _). discriminate H.
Qed.

Lemma demo_forged_fails :
  verification with_secret 0 (webhook_request forged (to_json created_event))
    (inl bad_signature).
Proof.
  exists "whsec_demo", forged_headers, created_event, "whsec_demo".
  split; [exact demo_configured |]. split; [apply demo_forged |].
  repeat split.
Defined.

(** Witness of C4 (amended): a forged signature on a well-formed event. *)
Lemma failed_verification_is_rejected_run :
  verification with_secret 0 (webhook_request forged (to_json created_event))
    (inl bad_signature)
  /\ response_of
       (run (clerk_webhook with_secret
               (webhook_request forged (to_json created_event))) 0)
     = inr (text_response "Error occurred" 400)
  /\ mutations
       (trace_of (run (clerk_webhook with_secret
                         (webhook_request forged (to_json created_event))) 0))
     = []
  /\ world_of
       (run (clerk_webhook with_secret
               (webhook_request forged (to_json created_event))) 0)
     = 0.
Proof.
  split; [exact demo_forged_fails |].
  exact (failed_verification_is_rejected with_secret 0 _ _ demo_forged_fails).
Defined.

(** Counterexample to C4 as stated: the same forged headers, which no
    body verifies with, on a body that is not JSON.  [request.json()]
    throws at line 27, before the [try] of lines 33-42: the handler fails
    with the parser's exception and does not answer 400. *)
Lemma forged_malformed_body_is_not_rejected :
  configured with_secret "whsec_demo"
  /\ Webhook_new with_secret "whsec_demo" = inr "whsec_demo"
  /\ carries (webhook_request forged "not json") forged_headers
  /\ (forall text w,
        Webhook_verify with_secret "whsec_demo" text forged_headers w
        = inl bad_signature)
  /\ run (clerk_webhook with_secret (webhook_request forged "not json")) 0
     = (inl syntax_error,
        (0, [HeaderGet "svix-id"; HeaderGet "svix-signature";
             HeaderGet "svix-timestamp"; BodyJson]))
  /\ ~ (exists response,
          response_of
            (run (clerk_webhook with_secret (webhook_request forged "not json")) 0)
          = inr response
          /\ status response = 400).
Proof.
  split; [exact demo_configured |]. split; [reflexivity |].
  split; [apply demo_forged |]. split; [reflexivity |]. split; [reflexivity |].
  intros (response & H & _). discriminate H.
Qed.

(** Witness of C7: a [user.deleted] event. *)
Lemma other_event_is_acknowledged_run :
  verification with_secret 0 (webhook_request signed (to_json deleted_event))
    (inr deleted_event)
  /\ get_prop deleted_event "type" = inr (VStr "user.deleted")
  /\ VStr "user.deleted" <> VStr "user.created"
  /\ VStr "user.deleted" <> VStr "user.updated"
  /\ response_of
       (run (clerk_webhook with_secret
               (webhook_request signed (to_json deleted_event))) 0)
     = inr (text_response "Webhooks processed successfully" 200)
  /\ mutations
       (trace_of (run (clerk_webhook with_secret
                         (webhook_request signed (to_json deleted_event))) 0))
     = []
  /\ world_of
       (run (clerk_webhook with_secret
               (webhook_request signed (to_json deleted_event))) 0)
     = 0.
Proof.
  split; [exact (demo_verified _ parse_deleted) |].
  split; [reflexivity |].
  split; [discriminate |]. split; [discriminate |].
  apply (other_event_is_acknowledged with_secret 0 _ deleted_event
           (VStr "user.deleted") (demo_verified _ parse_deleted));
    [reflexivity | discriminate | discriminate].
Defined.

(** Witness of C5: first name [ Ada] (with a leading space), last name
    [null]; the name passed to [syncUser] is [Ada]. *)
Lemma created_user_name_run :
  verification with_secret 0 (webhook_request signed (to_json created_event))
    (inr created_event)
  /\ name_part (VStr " Ada") " Ada"
  /\ name_part VNull ""
  /\ trim (" Ada" ++ " " ++ "") = "Ada"
  /\ exists image id,
       mutations
         (trace_of (run (clerk_webhook with_secret
                           (webhook_request signed (to_json created_event))) 0))
       = [Mutation api_users_syncUser
            (VObj [("email", VStr "ada@example.com");
                   ("name", VStr (trim (" Ada" ++ " " ++ "")));
                   ("image", image); ("clerkId", id)])].
Proof.
  split; [exact (demo_verified _ parse_created) |].
  split; [left; reflexivity |].
  split; [right; split; [left |]; reflexivity |].
  split; [reflexivity |].
  refine (proj2 (created_user_name_is_trimmed_full_name with_secret 0 _
                   created_event (user_data [ada_email]) (VStr " Ada") VNull
                   " Ada" "" (demo_verified _ parse_created) _ _ _ _ _ _)
            (VStr "ada@example.com") _);
    first [reflexivity | left; reflexivity | right; split; [left |]; reflexivity].
Defined.

Lemma parse_orphan : parse (to_json orphan_event) = inr orphan_event.
Proof. reflexivity. Defined.

(** Witness of C9: a [user.updated] event with no e-mail address. *)
Lemma empty_email_list_throws_run :
  verification with_secret 0 (webhook_request signed (to_json orphan_event))
    (inr orphan_event)
  /\ user_event (VStr "user.updated")
  /\ get_prop (user_data []) "email_addresses" = inr (VArr [])
  /\ response_of
       (run (clerk_webhook with_secret
               (webhook_request signed (to_json orphan_event))) 0)
     = inl (JsError "TypeError"
              "Cannot read properties of undefined (reading 'email_address')")
  /\ mutations
       (trace_of (run (clerk_webhook with_secret
                         (webhook_request signed (to_json orphan_event))) 0))
     = []
  /\ world_of
       (run (clerk_webhook with_secret
               (webhook_request signed (to_json orphan_event))) 0)
     = 0.
Proof.
  split; [exact (demo_verified _ parse_orphan) |].
  split; [right; reflexivity |]. split; [reflexivity |].
  apply (empty_email_list_throws with_secret 0 _ orphan_event
           (VStr "user.updated") (user_data [])
           (demo_verified _ parse_orphan));
    [reflexivity | right; reflexivity | reflexivity | reflexivity].
Defined.

(** Witness of C10 (amended): a signed request whose body is not JSON. *)
Lemma malformed_body_run :
  configured with_secret "whsec_demo"
  /\ carries (webhook_request signed "not json") signed_headers
  /\ JSON_parse with_secret "not json" = inl syntax_error
  /\ run (clerk_webhook with_secret (webhook_request signed "not json")) 0
     = (inl syntax_error,
        (0, [HeaderGet "svix-id"; HeaderGet "svix-signature";
             HeaderGet "svix-timestamp"; BodyJson])).
Proof.
  split; [exact demo_configured |]. split; [apply demo_signed |].
  split; [reflexivity |].
  exact (proj1 (malformed_body_throws_before_verification with_secret 0
                  (webhook_request signed "not json") "whsec_demo"
                  signed_headers syntax_error demo_configured
                  (demo_signed _) eq_refl)).
Defined.

(** Counterexample to C10 as stated: without the secret, the same request makes the
    handler throw before it has read a header or touched the body; the
    exception is not the parser's. *)
Lemma malformed_body_without_secret :
  carries (webhook_request signed "not json") signed_headers
  /\ JSON_parse without_secret "not json" = inl syntax_error
  /\ run (clerk_webhook without_secret (webhook_request signed "not json")) 0
     = (inl (JsError "Error" "Missing CLERK_WEBHOOK_SECRET environment variable"),
        (0, []))
  /\ ~ In BodyJson
        (trace_of
           (run (clerk_webhook without_secret (webhook_request signed "not json")) 0)).
Proof.
  split; [apply demo_signed |]. split; [reflexivity |]. split; [reflexivity |].
  intros [].
Qed.

(** An empty header counts as a missing one. *)
Example blank_header_is_rejected :
  run (clerk_webhook with_secret (webhook_request blank_signature "not json")) 0
  = (inr (text_response "No svix headers found" 400),
     (0, [HeaderGet "svix-id"; HeaderGet "svix-signature";
          HeaderGet "svix-timestamp"])).
Proof. reflexivity. Qed.

(** What is verified is the parsed body printed again: the blanks around
    the raw body are gone. *)
Example verified_text_is_not_the_raw_body :
  verifications
    (trace_of
       (run (clerk_webhook with_secret
               (webhook_request signed ("  " ++ to_json deleted_event ++ " ")%string)) 0))
  = [Verify (to_json deleted_event) signed_headers]
  /\ to_json deleted_event <> ("  " ++ to_json deleted_event ++ " ")%string.
Proof. split; [reflexivity | discriminate]. Qed.

(** A redelivered [user.updated] event reaches [updateUser] with the same
    name. *)
Example updated_user_run :
  mutations
    (trace_of
       (run (clerk_webhook with_secret
               (webhook_request signed
                  (to_json (event "user.updated" (user_data [ada_email]))))) 0))
  = [Mutation api_users_updateUser
       (VObj [("clerkId", VStr "user_1"); ("email", VStr "ada@example.com");
              ("name", VStr "Ada");
              ("image", VStr "https://img.example/1.png")])].
Proof. reflexivity. Qed.

(** *** The plan generation route *)

Lemma not_2xx_503 : ~ is_2xx 503.
Proof. unfold is_2xx. lia. Defined.

Lemma is_2xx_200 : is_2xx 200.
Proof. unfold is_2xx. lia. Defined.

(** Witness of C6: the upstream answers 503 [busy]. *)
Lemma upstream_error_is_reported_run :
  upstream_answers (generator (answers 503 "busy") false) 0
    (plan_call summer_request) summer_request 503 "busy" 0
  /\ ~ is_2xx 503
  /\ run (generate_program (generator (answers 503 "busy") false)
            (plan_call summer_request)) 0
     = (inr (json_response
               (to_json (VObj [("success", VBool false);
                               ("error", VStr "Python API error: 503 - busy")]))
               500),
        (0, up_to_answer (generator (answers 503 "busy") false) summer_request))
  /\ mutations
       (trace_of (run (generate_program (generator (answers 503 "busy") false)
                         (plan_call summer_request)) 0))
     = [].
Proof.
  split; [exact (demo_answers 503 "busy" false _ parse_summer) |].
  split; [exact not_2xx_503 |].
  exact (upstream_error_is_reported (generator (answers 503 "busy") false) 0 0
           (plan_call summer_request) summer_request 503 "busy"
           (demo_answers 503 "busy" false _ parse_summer) not_2xx_503).
Defined.

Lemma refusal_is_no_success : ~ double_success_holds refusal.
Proof.
  intros (success & data & inner & Hs & Ts & _).
  injection Hs as <-. discriminate Ts.
Defined.

(** Witness of C2 (amended): the upstream answers 200 with [success] false. *)
Lemma failed_result_is_returned_run :
  upstream_answers (generator (answers 200 (to_json refusal)) false) 0
    (plan_call summer_request) summer_request 200 (to_json refusal) 0
  /\ is_2xx 200
  /\ JSON_parse (generator (answers 200 (to_json refusal)) false) (to_json refusal)
     = inr refusal
  /\ ~ double_success_holds refusal
  /\ run (generate_program (generator (answers 200 (to_json refusal)) false)
            (plan_call summer_request)) 0
     = (inr (json_response (to_json refusal) 500),
        (0, up_to_answer (generator (answers 200 (to_json refusal)) false)
              summer_request))
  /\ mutations
       (trace_of
          (run (generate_program (generator (answers 200 (to_json refusal)) false)
                  (plan_call summer_request)) 0))
     = [].
Proof.
  split; [exact (demo_answers 200 _ false _ parse_summer) |].
  split; [exact is_2xx_200 |]. split; [reflexivity |].
  split; [exact refusal_is_no_success |].
  exact (failed_result_is_returned
           (generator (answers 200 (to_json refusal)) false) 0 0
           (plan_call summer_request) summer_request 200 (to_json refusal)
           refusal (demo_answers 200 _ false _ parse_summer) is_2xx_200
           eq_refl refusal_is_no_success).
Defined.

Lemma null_is_no_success : ~ double_success_holds VNull.
Proof. intros (success & data & inner & Hs & _). discriminate Hs. Defined.

(** Counterexample to C2 as stated: the upstream answers 200 with the body [null].
    The answer is HTTP 500, but its body is the handler's failure payload,
    not the parsed result. *)
Lemma null_result_is_not_returned :
  upstream_answers (generator (answers 200 "null") false) 0
    (plan_call summer_request) summer_request 200 "null" 0
  /\ is_2xx 200
  /\ JSON_parse (generator (answers 200 "null") false) "null" = inr VNull
  /\ ~ double_success_holds VNull
  /\ response_of
       (run (generate_program (generator (answers 200 "null") false)
               (plan_call summer_request)) 0)
     = inr (json_response
              (to_json
                 (VObj [("success", VBool false);
                        ("error",
                         VStr "Cannot read properties of null (reading 'success')")]))
              500)
  /\ to_json
       (VObj [("success", VBool false);
              ("error", VStr "Cannot read properties of null (reading 'success')")])
     <> to_json VNull.
Proof.
  split; [exact (demo_answers 200 _ false _ parse_summer) |].
  split; [exact is_2xx_200 |]. split; [reflexivity |].
  split; [exact null_is_no_success |]. split; [reflexivity | discriminate].
Qed.

(** A result whose flags are [1], not [true], passes the handler's test:
    the test is on truthiness. *)
Example truthy_flags_pass :
  response_of
    (run (generate_program
            (generator (answers 200 (to_json (generated (VNum 1%float)))) false)
            (plan_call summer_request)) 0)
  = inr (json_response
           (to_json (VObj (set_prop (spread (generated (VNum 1%float)))
                             "planId" (VStr "doc_0"))))
           200).
Proof. reflexivity. Qed.

Lemma demo_success (fails : bool) (payload : value) :
  parse (to_json payload) = inr payload ->
  upstream_answers
    (generator (answers 200 (to_json (generated (VBool true)))) fails) 0
    (plan_call payload) payload 200 (to_json (generated (VBool true))) 0.
Proof. intros H. exact (demo_answers 200 _ fails payload H). Defined.

(** Witness of C1 (amended): a named request, a successful generation, a working
    store. *)
Lemma successful_plan_is_saved_run :
  upstream_answers
    (generator (answers 200 (to_json (generated (VBool true)))) false) 0
    (plan_call summer_request) summer_request 200
    (to_json (generated (VBool true))) 0
  /\ is_2xx 200
  /\ trace_of
       (run (generate_program
               (generator (answers 200 (to_json (generated (VBool true)))) false)
               (plan_call summer_request)) 0)
     = up_to_answer
         (generator (answers 200 (to_json (generated (VBool true)))) false)
         summer_request
         ++ [Mutation api_plans_createPlan
               (plan_record (VStr "user_1") diet workout (VStr "Summer cut"))]
  /\ response_of
       (run (generate_program
               (generator (answers 200 (to_json (generated (VBool true)))) false)
               (plan_call summer_request)) 0)
     = inr (json_response
              (to_json (VObj (set_prop (spread (generated (VBool true)))
                                "planId" (VStr "doc_0"))))
              200).
Proof.
  split; [exact (demo_success false _ parse_summer) |].
  split; [exact is_2xx_200 |].
  destruct (successful_plan_is_saved
              (generator (answers 200 (to_json (generated (VBool true)))) false)
              0 0 (plan_call summer_request) summer_request 200
              (to_json (generated (VBool true))) (generated (VBool true))
              (VObj [("success", VBool true); ("diet_plan", diet);
                     ("workout_plan", workout)])
              diet workout (VStr "user_1") (VStr "Summer cut")
              (demo_success false _ parse_summer) is_2xx_200
              eq_refl eq_refl eq_refl eq_refl eq_refl eq_refl eq_refl eq_refl)
    as (Htrace & Hsaved & _).
  split; [exact Htrace |].
  exact (proj1 (Hsaved (VStr "doc_0") 1 eq_refl)).
Defined.

(** Counterexample to C1 as stated: the same request and the same successful
    generation, with a store that throws.  The answer is HTTP 500. *)
Lemma plan_is_not_saved_when_the_store_fails :
  upstream_answers
    (generator (answers 200 (to_json (generated (VBool true)))) true) 0
    (plan_call summer_request) summer_request 200
    (to_json (generated (VBool true))) 0
  /\ is_2xx 200
  /\ JSON_parse (generator (answers 200 (to_json (generated (VBool true)))) true)
       (to_json (generated (VBool true)))
     = inr (generated (VBool true))
  /\ get_prop (generated (VBool true)) "success" = inr (VBool true)
  /\ (exists data,
        get_prop (generated (VBool true)) "data" = inr data
        /\ get_prop data "success" = inr (VBool true))
  /\ response_of
       (run (generate_program
               (generator (answers 200 (to_json (generated (VBool true)))) true)
               (plan_call summer_request)) 0)
     = inr (json_response
              (to_json (VObj [("success", VBool false);
                              ("error", VStr "Server Error")]))
              500).
Proof.
  split; [exact (demo_success true _ parse_summer) |].
  split; [exact is_2xx_200 |]. split; [reflexivity |]. split; [reflexivity |].
  split; [eexists; split; reflexivity | reflexivity].
Qed.

(** A request whose [name] is the empty string is saved under the default
    name. *)
Example empty_name_gets_the_default :
  get_prop unnamed_request "name" = inr (VStr "")
  /\ mutations
       (trace_of
          (run (generate_program
                  (generator (answers 200 (to_json (generated (VBool true)))) false)
                  (plan_call unnamed_request)) 0))
     = [Mutation api_plans_createPlan
          (plan_record (VStr "user_1") diet workout (VStr "Fitness Plan"))].
Proof. split; reflexivity. Qed.

(** A request whose body is the JSON text [null]: reading [user_id] of it
    throws, after the generation, and nothing is saved. *)
Example null_request_is_not_saved :
  run (generate_program
         (generator (answers 200 (to_json (generated (VBool true)))) false)
         (plan_call VNull)) 0
  = (inr (json_response
            (to_json
               (VObj [("success", VBool false);
                      ("error",
                       VStr "Cannot read properties of null (reading 'user_id')")]))
            500),
     (0, up_to_answer
           (generator (answers 200 (to_json (generated (VBool true)))) false)
           VNull)).
Proof. reflexivity. Qed.

(** A body the upstream sends with status 200 that is not JSON. *)
Example unparsable_answer_run :
  response_of
    (run (generate_program (generator (answers 200 "<html>") false)
            (plan_call summer_request)) 0)
  = inr (json_response
           (to_json
              (VObj [("success", VBool false);
                     ("error",
                      VStr "Failed to parse Python backend JSON: SyntaxError: Unexpected token in JSON | Raw: <html>")]))
           500).
Proof. reflexivity. Qed.

End Runs.


(** * The rest of the two routes

    What follows covers the paths of the handlers that the properties above
    leave aside: the [user.updated] branch, the failure of a sync mutation,
    the failure of [new Webhook], the transport and parse failures of the
    plan route, and what holds of every run whatever its path. *)

(** ** Every end of the webhook route *)

Definition svix_reads : trace :=
  [HeaderGet "svix-id"; HeaderGet "svix-signature"; HeaderGet "svix-timestamp"].

(** [verification], with the values it goes through named. *)
Definition verified_by (R : Runtime) (w : World R) (request : http_request)
  (secret : string) (h : svix_headers) (payload : value)
  (outcome : result value) : Prop :=
  configured R secret
  /\ carries request h
  /\ JSON_parse R (req_body request) = inr payload
  /\ exists wh,
       Webhook_new R secret = inr wh
       /\ Webhook_verify R wh (JSON_stringify R payload) h w = outcome.

(** What a branch reads from the event before it calls its mutation. *)
Definition event_reads (evt data email id first last image : value) : Prop :=
  get_prop evt "data" = inr data
  /\ first_email data = inr email
  /\ get_prop data "id" = inr id
  /\ get_prop data "first_name" = inr first
  /\ get_prop data "last_name" = inr last
  /\ get_prop data "image_url" = inr image.

(** The mutation a branch calls, its arguments, and the text of the answer
    when the mutation throws. *)
Definition sync_call (R : Runtime) (type email first last image id : value)
  : option (mutation * value * string) :=
  if strict_eq_str type "user.created" then
    Some (api_users_syncUser, syncUser_args R email first last image id,
          "Error creating user")
  else if strict_eq_str type "user.updated" then
    Some (api_users_updateUser, updateUser_args R email first last image id,
          "Error updating user")
  else None.

(** The ends of a run of the webhook handler from world [w]: its outcome,
    the world it leaves and the effects it has had. *)
Inductive webhook_end (R : Runtime) (w : World R) (request : http_request)
  : result http_response -> World R -> trace -> Prop :=
| end_no_secret :
    nonempty (process_env R "CLERK_WEBHOOK_SECRET") = None ->
    webhook_end R w request
      (inl (JsError "Error" "Missing CLERK_WEBHOOK_SECRET environment variable"))
      w []
| end_no_header secret :
    configured R secret ->
    lacks_a_header request ->
    webhook_end R w request
      (inr (text_response "No svix headers found" 400)) w svix_reads
| end_body_throws secret h e :
    configured R secret ->
    carries request h ->
    JSON_parse R (req_body request) = inl e ->
    webhook_end R w request (inl e) w (svix_reads ++ [BodyJson])
| end_constructor_throws secret h payload e :
    configured R secret ->
    carries request h ->
    JSON_parse R (req_body request) = inr payload ->
    Webhook_new R secret = inl e ->
    webhook_end R w request (inl e) w
      (svix_reads ++ [BodyJson; WebhookNew secret])
| end_not_verified secret h payload e :
    verified_by R w request secret h payload (inl e) ->
    webhook_end R w request
      (inr (text_response "Error occurred" 400)) w
      (up_to_verify secret h (JSON_stringify R payload))
| end_event_throws secret h payload evt e :
    verified_by R w request secret h payload (inr evt) ->
    webhook_end R w request (inl e) w
      (up_to_verify secret h (JSON_stringify R payload))
| end_ignored secret h payload evt type :
    verified_by R w request secret h payload (inr evt) ->
    get_prop evt "type" = inr type ->
    type <> VStr "user.created" ->
    type <> VStr "user.updated" ->
    webhook_end R w request
      (inr (text_response "Webhooks processed successfully" 200)) w
      (up_to_verify secret h (JSON_stringify R payload))
| end_synced secret h payload evt type data email id first last image
    fn args text returned w' :
    verified_by R w request secret h payload (inr evt) ->
    get_prop evt "type" = inr type ->
    event_reads evt data email id first last image ->
    sync_call R type email first last image id = Some (fn, args, text) ->
    runMutation R fn args w = (inr returned, w') ->
    webhook_end R w request
      (inr (text_response "Webhooks processed successfully" 200)) w'
      (up_to_verify secret h (JSON_stringify R payload) ++ [Mutation fn args])
| end_sync_failed secret h payload evt type data email id first last image
    fn args text e w' :
    verified_by R w request secret h payload (inr evt) ->
    get_prop evt "type" = inr type ->
    event_reads evt data email id first last image ->
    sync_call R type email first last image id = Some (fn, args, text) ->
    runMutation R fn args w = (inl e, w') ->
    webhook_end R w request
      (inr (text_response text 500)) w'
      (up_to_verify secret h (JSON_stringify R payload) ++ [Mutation fn args]).

Section WebhookEnds.

Variable R : Runtime.

Lemma verified_by_verification (w : World R) (request : http_request)
  (secret : string) (h : svix_headers) (payload : value)
  (outcome : result value) :
  verified_by R w request secret h payload outcome ->
  verification R w request outcome.
Proof.
  intros (Hc & Hh & Hp & wh & Hw & Hv).
  exists secret, h, payload, wh.
  split; [exact Hc |]. split; [exact Hh |]. split; [exact Hp |].
  now split.
Qed.

Lemma verification_verified_by (w : World R) (request : http_request)
  (outcome : result value) :
  verification R w request outcome ->
  exists secret h payload, verified_by R w request secret h payload outcome.
Proof.
  intros (secret & h & payload & wh & Hc & Hh & Hp & Hw & Hv).
  exists secret, h, payload.
  split; [exact Hc |]. split; [exact Hh |]. split; [exact Hp |].
  exists wh. now split.
Qed.

(** The run of a request that gets through to [wh.verify]. *)
Lemma run_verified_by (w : World R) (request : http_request)
  (secret : string) (h : svix_headers) (payload : value)
  (outcome : result value) :
  verified_by R w request secret h payload outcome ->
  run (clerk_webhook R request) w =
    match outcome with
    | inr evt =>
        dispatch R evt (w, up_to_verify secret h (JSON_stringify R payload))
    | inl _ =>
        (inr (text_response "Error occurred" 400),
         (w, up_to_verify secret h (JSON_stringify R payload)))
    end.
Proof.
  intros (Hc & Hh & Hp & wh & Hw & Hv).
  rewrite (run_to_verify R w request secret h payload wh Hc Hh Hp Hw), Hv.
  reflexivity.
Qed.

(** The update branch on an event whose data and first e-mail address can
    be read: one call of [updateUser]. *)
Lemma on_user_updated_runs (evt data email id first last image : value)
  (w : World R) (t : trace) :
  event_reads evt data email id first last image ->
  on_user_updated R evt (w, t) =
    (let args := updateUser_args R email first last image id in
     (match fst (runMutation R api_users_updateUser args w) with
      | inr _ => inr None
      | inl _ => inr (Some (text_response "Error updating user" 500))
      end,
      (snd (runMutation R api_users_updateUser args w),
       t ++ [Mutation api_users_updateUser args]))).
Proof.
  intros (Hd & He & Hi & Hf & Hl & Him).
  destruct (readable _ _ _ Hi) as [Hdes _].
  unfold first_email in He.
  destruct (get_prop data "email_addresses") as [| addresses] eqn:Ha;
    [discriminate |].
  destruct (get_index addresses 0) as [| address] eqn:Hx; [discriminate |].
  unfold on_user_updated, updateUser_args, ctx_runMutation, attempt, bind, lift,
    emit, ret.
  rewrite Hd, Hdes, Hi, Hf, Hl, Him, Ha, Hx, He. simpl.
  destruct (runMutation R api_users_updateUser _ w) as [[?|?] ?]; reflexivity.
Qed.

Lemma strict_eq_str_differs (v : value) (lit : string) :
  strict_eq_str v lit = false -> v <> VStr lit.
Proof.
  intros H ->. simpl in H. now rewrite String.eqb_refl in H.
Qed.

Lemma event_reads_intro (evt data email id first last image : value) :
  get_prop evt "data" = inr data ->
  first_email data = inr email ->
  get_prop data "id" = inr id ->
  get_prop data "first_name" = inr first ->
  get_prop data "last_name" = inr last ->
  get_prop data "image_url" = inr image ->
  event_reads evt data email id first last image.
Proof. intros. repeat split; assumption. Qed.

(** Every run of the webhook handler ends in one of the ways
    [webhook_end] lists. *)
Lemma clerk_webhook_ends (w : World R) (request : http_request) :
  webhook_end R w request
    (response_of (run (clerk_webhook R request) w))
    (world_of (run (clerk_webhook R request) w))
    (trace_of (run (clerk_webhook R request) w)).
Proof.
  destruct (nonempty (process_env R "CLERK_WEBHOOK_SECRET")) as [secret |] eqn:Hs.
  2:{ unfold run, clerk_webhook. rewrite Hs. now apply end_no_secret. }
  pose proof (nonempty_inv _ _ Hs) as Hc.
  destruct (header_value request "svix-id") as [i |] eqn:Hi.
  2:{ rewrite run_without_header, Hs by (left; exact Hi).
      apply (end_no_header R w request secret Hc). now left. }
  destruct (header_value request "svix-timestamp") as [ts |] eqn:Ht.
  2:{ rewrite run_without_header, Hs by (right; left; exact Ht).
      apply (end_no_header R w request secret Hc). right. now left. }
  destruct (header_value request "svix-signature") as [sg |] eqn:Hg.
  2:{ rewrite run_without_header, Hs by (right; right; exact Hg).
      apply (end_no_header R w request secret Hc). right. now right. }
  set (h := {| svix_id := i; svix_timestamp := ts; svix_signature := sg |}).
  assert (Hh : carries request h) by (repeat split; assumption).
  destruct (JSON_parse R (req_body request)) as [e | payload] eqn:Hp.
  { unfold run, clerk_webhook, header_value in *. rewrite Hs.
    unfold headers_get, request_json, bind, emit, lift, ret. simpl.
    rewrite Hi, Hg, Ht, Hp.
    exact (end_body_throws R w request secret h e Hc Hh Hp). }
  destruct (Webhook_new R secret) as [e | wh] eqn:Hw.
  { unfold run, clerk_webhook, header_value in *. rewrite Hs.
    unfold headers_get, request_json, new_Webhook, bind, emit, lift, ret. simpl.
    rewrite Hi, Hg, Ht, Hp. simpl. rewrite Hw.
    exact (end_constructor_throws R w request secret h payload e Hc Hh Hp Hw). }
  assert (Hv : verified_by R w request secret h payload
                 (Webhook_verify R wh (JSON_stringify R payload) h w)).
  { split; [exact Hc |]. split; [exact Hh |]. split; [exact Hp |].
    exists wh. now split. }
  rewrite (run_verified_by w request secret h payload _ Hv).
  destruct (Webhook_verify R wh (JSON_stringify R payload) h w) as [e | evt].
  { exact (end_not_verified R w request secret h payload e Hv). }
  destruct (get_prop evt "type") as [e | type] eqn:Htype.
  { rewrite (dispatch_unreadable R _ _ _ Htype).
    exact (end_event_throws R w request secret h payload evt e Hv). }
  destruct (strict_eq_str type "user.created") eqn:Hcr.
  - apply strict_eq_str_true in Hcr. subst type.
    rewrite (dispatch_created R _ _ Htype).
    destruct (on_user_created_cases R evt w
                (up_to_verify secret h (JSON_stringify R payload)))
      as [(e & ->)
         | (d & em & id & f & l & im & Hd & He & Hid & Hf & Hl & Him & ->)].
    + exact (end_event_throws R w request secret h payload evt e Hv).
    + pose proof (event_reads_intro _ _ _ _ _ _ _ Hd He Hid Hf Hl Him) as Hr.
      cbv zeta.
      destruct (runMutation R api_users_syncUser
                  (syncUser_args R em f l im id) w) as [[e | v] w'] eqn:Hm.
      * exact (end_sync_failed R w request secret h payload evt _ _ _ _ _ _ _
                 api_users_syncUser _ "Error creating user" e w'
                 Hv Htype Hr eq_refl Hm).
      * exact (end_synced R w request secret h payload evt _ _ _ _ _ _ _
                 api_users_syncUser _ "Error creating user" v w'
                 Hv Htype Hr eq_refl Hm).
  - destruct (strict_eq_str type "user.updated") eqn:Hup.
    + apply strict_eq_str_true in Hup. subst type.
      rewrite (dispatch_updated R _ _ Htype).
      destruct (on_user_updated_cases R evt w
                  (up_to_verify secret h (JSON_stringify R payload)))
        as [(e & ->)
           | (d & em & id & f & l & im & Hd & He & Hid & Hf & Hl & Him & ->)].
      * exact (end_event_throws R w request secret h payload evt e Hv).
      * pose proof (event_reads_intro _ _ _ _ _ _ _ Hd He Hid Hf Hl Him) as Hr.
        cbv zeta.
        destruct (runMutation R api_users_updateUser
                    (updateUser_args R em f l im id) w) as [[e | v] w'] eqn:Hm.
        -- exact (end_sync_failed R w request secret h payload evt _ _ _ _ _ _ _
                    api_users_updateUser _ "Error updating user" e w'
                    Hv Htype Hr eq_refl Hm).
        -- exact (end_synced R w request secret h payload evt _ _ _ _ _ _ _
                    api_users_updateUser _ "Error updating user" v w'
                    Hv Htype Hr eq_refl Hm).
    + rewrite (dispatch_other R evt type _ Htype
                 (strict_eq_str_differs _ _ Hcr) (strict_eq_str_differs _ _ Hup)).
      exact (end_ignored R w request secret h payload evt type Hv Htype
               (strict_eq_str_differs _ _ Hcr) (strict_eq_str_differs _ _ Hup)).
Qed.

Lemma in_up_to_verify_not_mutation (secret : string) (h : svix_headers)
  (text : string) (fn : mutation) (args : value) :
  ~ In (Mutation fn args) (up_to_verify secret h text).
Proof.
  simpl. intros H. repeat destruct H as [H | H]; try discriminate. exact H.
Qed.

Lemma mutations_after_verify (secret : string) (h : svix_headers)
  (text : string) (fn : mutation) (args : value) :
  mutations (up_to_verify secret h text ++ [Mutation fn args])
  = [Mutation fn args].
Proof. reflexivity. Qed.

Lemma sync_call_cases (type email first last image id : value)
  (fn : mutation) (args : value) (text : string) :
  sync_call R type email first last image id = Some (fn, args, text) ->
  (type = VStr "user.created"
   /\ fn = api_users_syncUser
   /\ args = syncUser_args R email first last image id
   /\ text = "Error creating user")
  \/ (type = VStr "user.updated"
      /\ fn = api_users_updateUser
      /\ args = updateUser_args R email first last image id
      /\ text = "Error updating user").
Proof.
  unfold sync_call.
  destruct (strict_eq_str type "user.created") eqn:Hc.
  - intros H. injection H as <- <- <-. left.
    now rewrite (strict_eq_str_true _ _ Hc).
  - destruct (strict_eq_str type "user.updated") eqn:Hu; [| discriminate].
    intros H. injection H as <- <- <-. right.
    now rewrite (strict_eq_str_true _ _ Hu).
Qed.

(** The run of a verified [user.created] or [user.updated] event whose
    data can be read, in terms of what its mutation does. *)
Lemma run_sync (w : World R) (request : http_request)
  (evt type data email id first last image : value)
  (fn : mutation) (args : value) (text : string) :
  verification R w request (inr evt) ->
  get_prop evt "type" = inr type ->
  event_reads evt data email id first last image ->
  sync_call R type email first last image id = Some (fn, args, text) ->
  response_of (run (clerk_webhook R request) w)
  = match fst (runMutation R fn args w) with
    | inr _ => inr (text_response "Webhooks processed successfully" 200)
    | inl _ => inr (text_response text 500)
    end
  /\ world_of (run (clerk_webhook R request) w) = snd (runMutation R fn args w)
  /\ mutations (trace_of (run (clerk_webhook R request) w)) = [Mutation fn args].
Proof.
  intros Hv Htype Hr Hcall.
  destruct (verification_verified_by w request _ Hv)
    as (secret & h & payload & Hby).
  rewrite (run_verified_by w request secret h payload _ Hby).
  destruct (sync_call_cases _ _ _ _ _ _ _ _ _ Hcall)
    as [(-> & -> & -> & ->) | (-> & -> & -> & ->)].
  - rewrite (dispatch_created R _ _ Htype).
    destruct Hr as (Hd & He & Hi & Hf & Hl & Him).
    rewrite (on_user_created_runs R evt data email id first last image w _
               Hd He Hi Hf Hl Him).
    cbv zeta.
    destruct (runMutation R api_users_syncUser _ w) as [[e | v] w'];
      repeat split.
  - rewrite (dispatch_updated R _ _ Htype).
    rewrite (on_user_updated_runs evt data email id first last image w _ Hr).
    cbv zeta.
    destruct (runMutation R api_users_updateUser _ w) as [[e | v] w'];
      repeat split.
Qed.

(** X1 - For a verified [user.updated] event whose data can be read and
    whose first and last name are strings or missing, the handler calls
    [updateUser], once, with [clerkId] the event's [data.id], [email] the
    [email_address] of the first entry of [data.email_addresses], [name]
    the trim of first name, a space and last name, and [image] the event's
    [data.image_url]; it calls nothing else. *)
Theorem updated_user_is_synced (w : World R) (request : http_request)
  (evt data email id first last image : value) (f l : string) :
  verification R w request (inr evt) ->
  get_prop evt "type" = inr (VStr "user.updated") ->
  event_reads evt data email id first last image ->
  name_part first f ->
  name_part last l ->
  mutations (trace_of (run (clerk_webhook R request) w))
  = [Mutation api_users_updateUser
       (VObj [("clerkId", id); ("email", email);
              ("name", VStr (trim (f ++ " " ++ l)));
              ("image", image)])].
Proof.
  intros Hv Htype Hr Hf Hl.
  destruct (run_sync w request evt _ data email id first last image
              api_users_updateUser _ "Error updating user" Hv Htype Hr eq_refl)
    as (_ & _ & ->).
  unfold updateUser_args. now rewrite (full_name_of_parts R _ _ _ _ Hf Hl).
Qed.



(** X4 - When [new Webhook(secret)] throws (a secret svix cannot use),
    the handler throws that exception: the body has been parsed, but
    nothing has been verified, no mutation has run and the world is as it
    was. *)
Theorem unusable_secret_is_unhandled (w : World R) (request : http_request)
  (secret : string) (h : svix_headers) (payload : value) (e : exn) :
  configured R secret ->
  carries request h ->
  JSON_parse R (req_body request) = inr payload ->
  Webhook_new R secret = inl e ->
  run (clerk_webhook R request) w
  = (inl e,
     (w, [HeaderGet "svix-id"; HeaderGet "svix-signature";
          HeaderGet "svix-timestamp"; BodyJson; WebhookNew secret])).
Proof.
  intros [Hs Hne] (Hi & Ht & Hg) Hp Hw.
  unfold run, clerk_webhook, header_value in *.
  rewrite Hs, (nonempty_Some _ Hne).
  unfold headers_get, request_json, new_Webhook, bind, emit, lift, ret. simpl.
  rewrite Hi, Hg, Ht, Hp. simpl. rewrite Hw. reflexivity.
Qed.

(** X5 - A verified [user.created] or [user.updated] event whose [data]
    is [undefined] (the key is missing) or [null] makes the handler throw a
    [TypeError] at the destructuring: there is no response, no mutation has
    run and the world is as it was. *)
Theorem event_without_data_throws (w : World R) (request : http_request)
  (evt type data : value) :
  verification R w request (inr evt) ->
  get_prop evt "type" = inr type ->
  user_event type ->
  get_prop evt "data" = inr data ->
  data = VUndefined \/ data = VNull ->
  (exists message,
      response_of (run (clerk_webhook R request) w)
      = inl (JsError "TypeError" message))
  /\ mutations (trace_of (run (clerk_webhook R request) w)) = []
  /\ world_of (run (clerk_webhook R request) w) = w.
Proof.
  intros Hv Htype Hev Hd Hdata.
  destruct (verification_verified_by w request _ Hv)
    as (secret & h & payload & Hby).
  rewrite (run_verified_by w request secret h payload _ Hby).
  destruct Hev as [-> | ->].
  - rewrite (dispatch_created R _ _ Htype).
    unfold on_user_created, bind, lift. rewrite Hd.
    destruct Hdata as [-> | ->]; simpl; (split; [eexists; reflexivity |]);
      split; reflexivity.
  - rewrite (dispatch_updated R _ _ Htype).
    unfold on_user_updated, bind, lift. rewrite Hd.
    destruct Hdata as [-> | ->]; simpl; (split; [eexists; reflexivity |]);
      split; reflexivity.
Qed.

Ltac ends_of w request :=
  let Hend := fresh "Hend" in
  pose proof (clerk_webhook_ends w request) as Hend;
  remember (response_of (run (clerk_webhook R request) w)) as run_answer eqn:Hanswer;
  remember (world_of (run (clerk_webhook R request) w)) as run_world eqn:Hworld;
  remember (trace_of (run (clerk_webhook R request) w)) as run_trace eqn:Hdone;
  clear Hanswer Hworld Hdone;
  destruct Hend.

Ltac no_mutation_in H :=
  simpl in H; repeat destruct H as [H | H]; try discriminate; try contradiction.

(** X6 - In every run of the webhook handler, a mutation is called only
    after the request's signature has been verified, only for an event of
    type [user.created] (then it is [syncUser]) or [user.updated] (then it
    is [updateUser]), and it is the only mutation of the run. *)
Theorem sync_needs_verified_user_event (w : World R) (request : http_request)
  (fn : mutation) (args : value) :
  In (Mutation fn args) (trace_of (run (clerk_webhook R request) w)) ->
  (exists evt type,
      verification R w request (inr evt)
      /\ get_prop evt "type" = inr type
      /\ ((type = VStr "user.created" /\ fn = api_users_syncUser)
          \/ (type = VStr "user.updated" /\ fn = api_users_updateUser)))
  /\ mutations (trace_of (run (clerk_webhook R request) w)) = [Mutation fn args].
Proof.
  intros Hin. ends_of w request; try solve [no_mutation_in Hin].
  - apply in_app_or in Hin. destruct Hin as [Hin | [Hin | []]];
      [exfalso; exact (in_up_to_verify_not_mutation _ _ _ _ _ Hin) |].
    injection Hin as <- <-. split; [| apply mutations_after_verify].
    exists evt, type. split; [eapply verified_by_verification; eassumption |].
    split; [assumption |].
    match goal with
    | Hcall : sync_call _ _ _ _ _ _ _ = Some _ |- _ =>
        destruct (sync_call_cases _ _ _ _ _ _ _ _ _ Hcall)
          as [(-> & -> & _) | (-> & -> & _)]; [left | right]; now split
    end.
  - apply in_app_or in Hin. destruct Hin as [Hin | [Hin | []]];
      [exfalso; exact (in_up_to_verify_not_mutation _ _ _ _ _ Hin) |].
    injection Hin as <- <-. split; [| apply mutations_after_verify].
    exists evt, type. split; [eapply verified_by_verification; eassumption |].
    split; [assumption |].
    match goal with
    | Hcall : sync_call _ _ _ _ _ _ _ = Some _ |- _ =>
        destruct (sync_call_cases _ _ _ _ _ _ _ _ _ Hcall)
          as [(-> & -> & _) | (-> & -> & _)]; [left | right]; now split
    end.
Qed.

(** X7 - What the status of an answer of the webhook handler means:
    200 is given only to a request whose signature was verified; 400 goes
    with no mutation and an untouched world; 500 goes with exactly one
    mutation, which threw. *)
Theorem webhook_answer_meaning (w : World R) (request : http_request)
  (answer : http_response) :
  response_of (run (clerk_webhook R request) w) = inr answer ->
  (status answer = 200
   /\ exists evt, verification R w request (inr evt))
  \/ (status answer = 400
      /\ mutations (trace_of (run (clerk_webhook R request) w)) = []
      /\ world_of (run (clerk_webhook R request) w) = w)
  \/ (status answer = 500
      /\ exists fn args e,
           mutations (trace_of (run (clerk_webhook R request) w))
           = [Mutation fn args]
           /\ fst (runMutation R fn args w) = inl e).
Proof.
  intros Hanswer'. ends_of w request; try discriminate;
    injection Hanswer' as <-.
  - right; left. repeat split.
  - right; left. repeat split.
  - left. split; [reflexivity |].
    exists evt. eapply verified_by_verification; eassumption.
  - left. split; [reflexivity |].
    exists evt. eapply verified_by_verification; eassumption.
  - right; right. split; [reflexivity |]. exists fn, args, e.
    split; [apply mutations_after_verify |].
    match goal with Hm : runMutation _ _ _ _ = _ |- _ => now rewrite Hm end.
Qed.

(** X8 - In every run of the webhook handler, svix is asked to verify
    at most once, and what it is given is the request's own three header
    values, each non-empty, together with [JSON.stringify] of the parsed
    body. *)
Theorem verifier_is_given_the_request (w : World R) (request : http_request)
  (text : string) (h : svix_headers) :
  In (Verify text h) (trace_of (run (clerk_webhook R request) w)) ->
  carries request h
  /\ (exists payload,
        JSON_parse R (req_body request) = inr payload
        /\ text = JSON_stringify R payload)
  /\ verifications (trace_of (run (clerk_webhook R request) w))
     = [Verify text h].
Proof.
  intros Hin.
  assert (Hby : forall secret h0 payload outcome,
             verified_by R w request secret h0 payload outcome ->
             Verify (JSON_stringify R payload) h0 = Verify text h ->
             carries request h
             /\ exists payload,
                  JSON_parse R (req_body request) = inr payload
                  /\ text = JSON_stringify R payload).
  { intros secret h0 payload outcome (_ & Hh & Hp & _) Heq.
    injection Heq as <- <-. split; [exact Hh |]. exists payload. now split. }
  ends_of w request;
    try (apply in_app_or in Hin; destruct Hin as [Hin | Hin];
         [| no_mutation_in Hin]);
    simpl in Hin; repeat destruct Hin as [Hin | Hin];
    try discriminate Hin; try contradiction;
    match goal with
    | Hv : verified_by _ _ _ _ _ _ _ |- _ =>
        destruct (Hby _ _ _ _ Hv Hin) as [Hh Hp];
        injection Hin as <- <-;
        (split; [exact Hh |]); (split; [exact Hp | reflexivity])
    end.
Qed.

End WebhookEnds.

(** ** Every end of the plan generation route *)

(** The [init] of the call to the upstream: the request's parsed body,
    printed again. *)
Definition forwarded (R : Runtime) (payload : value) : fetch_init :=
  {| fi_method := "POST";
     fi_headers := [("Content-Type", "application/json")];
     fi_body := JSON_stringify R payload |}.

(** What the [catch] of lines 158-170 makes of a caught [e]: the answer
    500 carrying its message, or, when [String(e)] throws, that throw. *)
Definition caught (R : Runtime) (e : exn) : result http_response :=
  match error_message (number_to_string R) e with
  | inr message => inr (json_response (failure_payload R message) 500)
  | inl raised => inl raised
  end.

(** What leaves the [catch] of lines 123-127 for a parse error: the new
    [Error] with its message, or, when [`${parseErr}`] throws, that
    throw. *)
Definition malformed_error (R : Runtime) (parseErr : exn) (text : string) : exn :=
  match exn_to_string (number_to_string R) parseErr with
  | inr shown =>
      JsError "Error"
        ("Failed to parse Python backend JSON: " ++ shown ++ " | Raw: " ++ text)
  | inl raised => raised
  end.

(** An [Error] instance. *)
Definition is_error (e : exn) : Prop := exists name message, e = JsError name message.


(** The answer to a 2xx result that does not pass the double-success
    test. *)
Definition refusal_response (R : Runtime) (result : value) : http_response :=
  json_response
    match result with
    | VNull =>
        failure_payload R "Cannot read properties of null (reading 'success')"
    | VUndefined =>
        failure_payload R "Cannot read properties of undefined (reading 'success')"
    | _ => JSON_stringify R result
    end
    500.

(** [record] is the plan the handler builds from the request and the
    result, lines 131-137. *)
Definition plan_of (payload result record : value) : Prop :=
  exists data diet workout user_id name,
    get_prop result "data" = inr data
    /\ get_prop data "diet_plan" = inr diet
    /\ get_prop data "workout_plan" = inr workout
    /\ get_prop payload "user_id" = inr user_id
    /\ get_prop payload "name" = inr name
    /\ record = plan_record user_id diet workout (plan_name name).

(** The upstream answered 2xx and its body parsed to a result that passes
    the double-success test. *)
Definition generated_for (R : Runtime) (w : World R) (request : http_request)
  (payload result : value) (w' : World R) : Prop :=
  exists code text,
    upstream_answers R w request payload code text w'
    /\ is_2xx code
    /\ JSON_parse R text = inr result
    /\ double_success_holds result.

(** The ends of a run of the plan handler from world [w]: its outcome,
    the world it leaves and the effects it has had. *)
Inductive plan_end (R : Runtime) (w : World R) (request : http_request)
  : result http_response -> World R -> trace -> Prop :=
| plan_bad_request e :
    JSON_parse R (req_body request) = inl e ->
    plan_end R w request (caught R e) w [BodyJson]
| plan_unreachable payload e w' :
    JSON_parse R (req_body request) = inr payload ->
    fetch R pythonApiUrl (forwarded R payload) w = (inl e, w') ->
    plan_end R w request (caught R e) w'
      [BodyJson; Fetch pythonApiUrl (forwarded R payload)]
| plan_unread payload response e w' :
    JSON_parse R (req_body request) = inr payload ->
    fetch R pythonApiUrl (forwarded R payload) w = (inr response, w') ->
    fr_text response = inl e ->
    plan_end R w request (caught R e) w' (up_to_answer R payload)
| plan_upstream_error payload code text w' :
    upstream_answers R w request payload code text w' ->
    ~ is_2xx code ->
    plan_end R w request
      (inr (json_response
              (failure_payload R (upstream_error_message code text)) 500))
      w' (up_to_answer R payload)
| plan_unparsable payload code text w' e :
    upstream_answers R w request payload code text w' ->
    is_2xx code ->
    JSON_parse R text = inl e ->
    plan_end R w request (caught R (malformed_error R e text))
      w' (up_to_answer R payload)
| plan_refused payload code text w' result :
    upstream_answers R w request payload code text w' ->
    is_2xx code ->
    JSON_parse R text = inr result ->
    ~ double_success_holds result ->
    plan_end R w request (inr (refusal_response R result)) w'
      (up_to_answer R payload)
| plan_unreadable_request payload result w' e :
    generated_for R w request payload result w' ->
    get_prop payload "user_id" = inl e ->
    plan_end R w request (caught R e) w' (up_to_answer R payload)
| plan_store_failed payload result w' record e w'' :
    generated_for R w request payload result w' ->
    plan_of payload result record ->
    runMutation R api_plans_createPlan record w' = (inl e, w'') ->
    plan_end R w request (caught R e) w''
      (up_to_answer R payload ++ [Mutation api_plans_createPlan record])
| plan_saved payload result w' record planId w'' :
    generated_for R w request payload result w' ->
    plan_of payload result record ->
    runMutation R api_plans_createPlan record w' = (inr planId, w'') ->
    plan_end R w request
      (inr (json_response
              (JSON_stringify R (VObj (set_prop (spread result) "planId" planId)))
              200))
      w''
      (up_to_answer R payload ++ [Mutation api_plans_createPlan record]).

Section PlanEnds.

Variable R : Runtime.

Lemma fr_ok_is_2xx (r : fetch_response) : fr_ok r = true -> is_2xx (fr_status r).
Proof.
  unfold fr_ok. intros H. apply andb_prop in H. destruct H as [Hlo Hhi].
  split; now apply Nat.leb_le.
Qed.

Lemma fr_ok_not_2xx (r : fetch_response) :
  fr_ok r = false -> ~ is_2xx (fr_status r).
Proof.
  intros H Hok. rewrite (fr_ok_true _ Hok) in H. discriminate.
Qed.

(** The double-success test decides [double_success_holds] on a result
    whose [success] can be read. *)
Lemma double_success_decides (result success : value) :
  get_prop result "success" = inr success ->
  double_success_holds result \/ ~ double_success_holds result.
Proof.
  intros Hs.
  destruct (truthy success) eqn:Ts.
  2:{ right. intros (s & d & i & Hs' & Ts' & _).
      rewrite Hs in Hs'. injection Hs' as <-. congruence. }
  destruct (readable _ _ _ Hs) as [_ Hall].
  destruct (Hall "data") as [data Hd].
  destruct (truthy data) eqn:Td.
  2:{ right. intros (s & d & i & _ & _ & Hd' & Td' & _).
      rewrite Hd in Hd'. injection Hd' as <-. congruence. }
  destruct (truthy_readable data "success" Td) as [inner Hi].
  destruct (truthy inner) eqn:Ti.
  - left. exists success, data, inner. repeat split; assumption.
  - right. intros (s & d & i & _ & _ & Hd' & _ & Hi' & Ti').
    rewrite Hd in Hd'. injection Hd' as <-.
    rewrite Hi in Hi'. injection Hi' as <-. congruence.
Qed.

(** Lines 131-151, after the test has passed, when the request's
    [user_id] cannot be read. *)
Lemma save_unreadable_request (payload result : value) (text : string)
  (e : exn) (s : store R) :
  JSON_parse R text = inr result ->
  double_success_holds result ->
  get_prop payload "user_id" = inl e ->
  parse_and_save R payload text s = (inl e, s).
Proof.
  intros Hparse Hds Hu.
  unfold parse_and_save, try_catch, bind, lift. rewrite Hparse.
  rewrite (double_success_true R result _ Hds), Hu. reflexivity.
Qed.

(** With double success and a readable request, a plan is built. *)
Lemma plan_of_exists (payload result user_id : value) :
  double_success_holds result ->
  get_prop payload "user_id" = inr user_id ->
  exists record, plan_of payload result record.
Proof.
  intros (success & data & inner & Hs & Ts & Hd & Td & Hi & Ti) Hu.
  destruct (truthy_readable data "diet_plan" Td) as [diet Hdiet].
  destruct (truthy_readable data "workout_plan" Td) as [workout Hwork].
  destruct (readable _ _ _ Hu) as [_ Hall].
  destruct (Hall "name") as [name Hname].
  exists (plan_record user_id diet workout (plan_name name)).
  exists data, diet, workout, user_id, name. repeat split; assumption.
Qed.

(** Lines 131-151, after the test has passed, for the plan built. *)
Lemma save_plan (payload result record : value) (text : string)
  (w : World R) (t : trace) :
  JSON_parse R text = inr result ->
  double_success_holds result ->
  plan_of payload result record ->
  parse_and_save R payload text (w, t) =
    match runMutation R api_plans_createPlan record w with
    | (inr planId, w'') =>
        (inr (json_response
                (JSON_stringify R
                   (VObj (set_prop (spread result) "planId" planId)))
                200),
         (w'', t ++ [Mutation api_plans_createPlan record]))
    | (inl e, w'') =>
        (inl e, (w'', t ++ [Mutation api_plans_createPlan record]))
    end.
Proof.
  intros Hparse Hds
    (data & diet & workout & user_id & name & Hd & Hdiet & Hwork & Hu & Hname & ->).
  unfold parse_and_save, try_catch, bind, lift. rewrite Hparse.
  rewrite (double_success_true R result _ Hds).
  rewrite Hu, Hd, Hdiet, Hwork, Hname.
  unfold ctx_runMutation, bind, emit, ret, plan_record, plan_name, or_else.
  simpl.
  destruct (runMutation R api_plans_createPlan _ w) as [[e | planId] w''];
    reflexivity.
Qed.

(** The handler is its [try] block, with [caught] for what it throws. *)
Lemma run_generate_program (w : World R) (request : http_request) :
  run (generate_program R request) w =
    match generate_program_try R request (w, []) with
    | (inr answer, s) => (inr answer, s)
    | (inl e, s) => (caught R e, s)
    end.
Proof.
  unfold run, generate_program, try_catch, caught, bind, lift, ret.
  destruct (generate_program_try R request (w, [])) as [[e | answer] s];
    [| reflexivity].
  destruct (error_message (number_to_string R) e); reflexivity.
Qed.

Lemma caught_error (name message : string) :
  caught R (JsError name message)
  = inr (json_response (failure_payload R message) 500).
Proof. reflexivity. Qed.

(** Lines 130 and 152-157 on a result that does not pass the test. *)
Lemma refuse_result (payload result : value) (text : string) (s : store R) :
  JSON_parse R text = inr result ->
  ~ double_success_holds result ->
  match parse_and_save R payload text s with
  | (inr answer, s') => (inr answer, s')
  | (inl e, s') => (caught R e, s')
  end
  = (inr (refusal_response R result), s).
Proof.
  intros Hparse Hno.
  unfold parse_and_save, try_catch, bind, lift. rewrite Hparse.
  destruct (get_prop result "success") as [e | success] eqn:Hs.
  - destruct (unreadable _ _ _ Hs) as [-> | ->]; reflexivity.
  - rewrite (double_success_false R result success _ Hs Hno).
    destruct result; simpl in Hs; try discriminate; reflexivity.
Qed.

(** Lines 120-127 on a body that does not parse. *)
Lemma parse_failure (payload : value) (text : string) (e : exn) (s : store R) :
  JSON_parse R text = inl e ->
  parse_and_save R payload text s = (inl (malformed_error R e text), s).
Proof.
  intros Hparse.
  unfold parse_and_save, try_catch, bind, lift, throw, malformed_error.
  rewrite Hparse.
  destruct (exn_to_string (number_to_string R) e); reflexivity.
Qed.

(** Every run of the plan handler ends in one of the ways [plan_end]
    lists. *)
Lemma generate_program_ends (w : World R) (request : http_request) :
  plan_end R w request
    (response_of (run (generate_program R request) w))
    (world_of (run (generate_program R request) w))
    (trace_of (run (generate_program R request) w)).
Proof.
  rewrite run_generate_program.
  destruct (JSON_parse R (req_body request)) as [e | payload] eqn:Hp.
  { unfold generate_program_try, request_json, bind, emit, lift. simpl.
    rewrite Hp. exact (plan_bad_request R w request e Hp). }
  destruct (fetch R pythonApiUrl (forwarded R payload) w)
    as [[e | response] w'] eqn:Hf.
  { unfold generate_program_try, request_json, do_fetch, bind, emit, lift.
    simpl. rewrite Hp. simpl. unfold forwarded in Hf. rewrite Hf.
    exact (plan_unreachable R w request payload e w' Hp Hf). }
  destruct (fr_text response) as [e | text] eqn:Ht.
  { unfold generate_program_try, request_json, do_fetch, response_text, bind,
      emit, lift. simpl.
    rewrite Hp. simpl. unfold forwarded in Hf. rewrite Hf. simpl. rewrite Ht.
    exact (plan_unread R w request payload response e w' Hp Hf Ht). }
  assert (Hup : upstream_answers R w request payload (fr_status response) text w').
  { split; [exact Hp |]. exists response. repeat split; assumption. }
  destruct (fr_ok response) eqn:Hok.
  2:{ pose proof (fr_ok_not_2xx _ Hok) as Hno.
      rewrite (run_try_error_status R w w' request payload _ text Hup Hno).
      rewrite caught_error.
      exact (plan_upstream_error R w request payload _ text w' Hup Hno). }
  pose proof (fr_ok_is_2xx _ Hok) as H2xx.
  rewrite (run_try_2xx R w w' request payload _ text Hup H2xx).
  destruct (JSON_parse R text) as [e | result] eqn:Hparse.
  { rewrite (parse_failure payload text e _ Hparse).
    exact (plan_unparsable R w request payload _ text w' e Hup H2xx Hparse). }
  assert (Hcases : double_success_holds result \/ ~ double_success_holds result).
  { destruct (get_prop result "success") as [e | success] eqn:Hs.
    - right. intros (s0 & d & i & Hs' & _). congruence.
    - exact (double_success_decides result success Hs). }
  destruct Hcases as [Hds | Hno].
  2:{ rewrite (refuse_result payload result text _ Hparse Hno).
      exact (plan_refused R w request payload _ text w' result
               Hup H2xx Hparse Hno). }
  assert (Hgen : generated_for R w request payload result w').
  { exists (fr_status response), text.
    split; [exact Hup |]. split; [exact H2xx |]. now split. }
  destruct (get_prop payload "user_id") as [e | user_id] eqn:Hu.
  { rewrite (save_unreadable_request payload result text e _ Hparse Hds Hu).
    exact (plan_unreadable_request R w request payload result w' e Hgen Hu). }
  destruct (plan_of_exists payload result user_id Hds Hu) as [record Hrec].
  rewrite (save_plan payload result record text w' _ Hparse Hds Hrec).
  destruct (runMutation R api_plans_createPlan record w')
    as [[e | planId] w''] eqn:Hm.
  - exact (plan_store_failed R w request payload result w' record e w''
             Hgen Hrec Hm).
  - exact (plan_saved R w request payload result w' record planId w''
             Hgen Hrec Hm).
Qed.

Ltac no_mutation_in H :=
  simpl in H; repeat destruct H as [H | H]; try discriminate; try contradiction.

Ltac plan_ends_of w request :=
  let Hend := fresh "Hend" in
  pose proof (generate_program_ends w request) as Hend;
  remember (response_of (run (generate_program R request) w)) as run_answer eqn:Hrun1;
  remember (world_of (run (generate_program R request) w)) as run_world eqn:Hrun2;
  remember (trace_of (run (generate_program R request) w)) as run_trace eqn:Hrun3;
  clear Hrun1 Hrun2 Hrun3;
  destruct Hend.

(** What [caught] gives: the answer 500 with the message, or the throw of
    the conversion. *)
Lemma caught_cases (e : exn) :
  (exists message,
      error_message (number_to_string R) e = inr message
      /\ caught R e = inr (json_response (failure_payload R message) 500))
  \/ (exists raised,
        error_message (number_to_string R) e = inl raised
        /\ caught R e = inl raised).
Proof.
  unfold caught. destruct (error_message (number_to_string R) e) as [raised | message].
  - right. now exists raised.
  - left. now exists message.
Qed.

Lemma caught_answer (e : exn) (answer : http_response) :
  caught R e = inr answer ->
  status answer = 500
  /\ headers answer = [("Content-Type", "application/json")].
Proof.
  destruct (caught_cases e) as [(m & _ & ->) | (r & _ & ->)];
    [| discriminate].
  intros H. injection H as <-. now split.
Qed.

Lemma caught_is_error (e : exn) :
  is_error e -> exists answer, caught R e = inr answer.
Proof. intros (name & message & ->). eexists. apply caught_error. Qed.



Lemma plan_name_is_truthy (name : value) : truthy (plan_name name) = true.
Proof.
  unfold plan_name. destruct (truthy name) eqn:H; [exact H | reflexivity].
Qed.

Lemma in_up_to_answer_not_mutation (payload : value) (fn : mutation)
  (args : value) :
  ~ In (Mutation fn args) (up_to_answer R payload).
Proof.
  simpl. intros H. repeat destruct H as [H | H]; try discriminate. exact H.
Qed.

Lemma mutations_after_answer (payload record : value) :
  mutations (up_to_answer R payload ++ [Mutation api_plans_createPlan record])
  = [Mutation api_plans_createPlan record].
Proof. reflexivity. Qed.


(** X10 - When the request's body is not valid JSON, the plan handler
    answers HTTP 500 with [{success: false, error}] carrying the parser's
    message; the upstream has not been called and nothing is saved.
    (Should the thrown value have no string conversion, the handler fails
    with the throw of [String(error)].) *)
Theorem unparsable_request_is_reported (w : World R) (request : http_request)
  (e : exn) :
  JSON_parse R (req_body request) = inl e ->
  run (generate_program R request) w
  = (match error_message (number_to_string R) e with
     | inr message =>
         inr (json_response
                (JSON_stringify R
                   (VObj [("success", VBool false); ("error", VStr message)]))
                500)
     | inl raised => inl raised
     end,
     (w, [BodyJson])).
Proof.
  intros Hp. rewrite run_generate_program.
  unfold generate_program_try, request_json, bind, emit, lift. simpl.
  rewrite Hp. reflexivity.
Qed.

(** X11 - When the call to the upstream fails in transport ([fetch]
    rejects, or reading the body of its response does), the plan handler
    answers HTTP 500 with [{success: false, error}] carrying the
    exception's message, and nothing is saved.  (Should the thrown value
    have no string conversion, the handler fails with the throw of
    [String(error)].) *)
Theorem transport_failure_is_reported (w w' : World R)
  (request : http_request) (payload : value) (e : exn) :
  JSON_parse R (req_body request) = inr payload ->
  fetch R pythonApiUrl (forwarded R payload) w = (inl e, w')
  \/ (exists response,
        fetch R pythonApiUrl (forwarded R payload) w = (inr response, w')
        /\ fr_text response = inl e) ->
  response_of (run (generate_program R request) w)
  = match error_message (number_to_string R) e with
    | inr message =>
        inr (json_response
               (JSON_stringify R
                  (VObj [("success", VBool false); ("error", VStr message)]))
               500)
    | inl raised => inl raised
    end
  /\ world_of (run (generate_program R request) w) = w'
  /\ mutations (trace_of (run (generate_program R request) w)) = [].
Proof.
  intros Hp [Hf | (response & Hf & Ht)]; unfold forwarded in Hf;
    rewrite run_generate_program;
    unfold generate_program_try, request_json, do_fetch, response_text,
      bind, emit, lift; simpl;
    rewrite Hp; simpl; rewrite Hf; simpl.
  - repeat split.
  - rewrite Ht. repeat split.
Qed.

(** X12 - When the upstream answers 2xx with a body that is not valid
    JSON, the plan handler answers HTTP 500 with [{success: false, error}]
    whose message is [Failed to parse Python backend JSON: ], the parser's
    error as a string, [ | Raw: ] and the raw body; nothing is saved.
    (Should [`${parseErr}`] throw, the outer [catch] handles that throw
    like any other.) *)
Theorem unparsable_answer_is_reported (w w' : World R)
  (request : http_request) (payload : value) (code : nat) (text : string)
  (e : exn) :
  upstream_answers R w request payload code text w' ->
  is_2xx code ->
  JSON_parse R text = inl e ->
  run (generate_program R request) w
  = (match exn_to_string (number_to_string R) e with
     | inr shown =>
         inr (json_response
                (JSON_stringify R
                   (VObj [("success", VBool false);
                          ("error",
                           VStr ("Failed to parse Python backend JSON: "
                                   ++ shown ++ " | Raw: " ++ text))]))
                500)
     | inl raised =>
         match error_message (number_to_string R) raised with
         | inr message =>
             inr (json_response
                    (JSON_stringify R
                       (VObj [("success", VBool false);
                              ("error", VStr message)]))
                    500)
         | inl raised' => inl raised'
         end
     end,
     (w', up_to_answer R payload))
  /\ mutations (trace_of (run (generate_program R request) w)) = [].
Proof.
  intros Hup Hok Hparse. rewrite run_generate_program.
  rewrite (run_try_2xx R w w' request payload code text Hup Hok).
  rewrite (parse_failure payload text e _ Hparse).
  unfold malformed_error.
  destruct (exn_to_string (number_to_string R) e); split; reflexivity.
Qed.

(** X13 - In every run of the plan handler, a mutation is called only
    when the upstream answered 2xx with a result that passes the
    double-success test; it is [createPlan], it is the only mutation of
    the run, and the record it is given has [isActive] true and a truthy
    [name]. *)
Theorem plan_needs_double_success (w : World R) (request : http_request)
  (fn : mutation) (args : value) :
  In (Mutation fn args) (trace_of (run (generate_program R request) w)) ->
  fn = api_plans_createPlan
  /\ (exists payload result w',
        generated_for R w request payload result w'
        /\ plan_of payload result args)
  /\ mutations (trace_of (run (generate_program R request) w))
     = [Mutation fn args]
  /\ get_prop args "isActive" = inr (VBool true)
  /\ (exists name, get_prop args "name" = inr name /\ truthy name = true).
Proof.
  intros Hin.
  plan_ends_of w request; try solve [no_mutation_in Hin].
  - apply in_app_or in Hin. destruct Hin as [Hin | [Hin | []]];
      [exfalso; exact (in_up_to_answer_not_mutation _ _ _ Hin) |].
    injection Hin as <- <-. split; [reflexivity |].
    split; [do 3 eexists; split; eassumption |].
    split; [apply mutations_after_answer |].
    match goal with
    | Hrec : plan_of _ _ _ |- _ =>
        destruct Hrec as (d & di & wo & u & n & _ & _ & _ & _ & _ & ->)
    end.
    split; [reflexivity |]. exists (plan_name n).
    split; [reflexivity | apply plan_name_is_truthy].
  - apply in_app_or in Hin. destruct Hin as [Hin | [Hin | []]];
      [exfalso; exact (in_up_to_answer_not_mutation _ _ _ Hin) |].
    injection Hin as <- <-. split; [reflexivity |].
    split; [do 3 eexists; split; eassumption |].
    split; [apply mutations_after_answer |].
    match goal with
    | Hrec : plan_of _ _ _ |- _ =>
        destruct Hrec as (d & di & wo & u & n & _ & _ & _ & _ & _ & ->)
    end.
    split; [reflexivity |]. exists (plan_name n).
    split; [reflexivity | apply plan_name_is_truthy].
Qed.

(** X14 - The plan handler answers 200 only when the plan has been
    stored: the upstream's result passed the test, [createPlan] was called
    once with the plan built from request and result, it returned an id,
    and the body of the answer is the JSON of the result with [planId] set
    to that id. *)
Theorem answer_200_means_stored (w : World R) (request : http_request)
  (answer : http_response) :
  response_of (run (generate_program R request) w) = inr answer ->
  status answer = 200 ->
  exists payload result w' record planId,
    generated_for R w request payload result w'
    /\ plan_of payload result record
    /\ runMutation R api_plans_createPlan record w'
       = (inr planId, world_of (run (generate_program R request) w))
    /\ mutations (trace_of (run (generate_program R request) w))
       = [Mutation api_plans_createPlan record]
    /\ body answer
       = JSON_stringify R (VObj (set_prop (spread result) "planId" planId)).
Proof.
  intros Hanswer Hstatus. plan_ends_of w request;
    try (destruct (caught_answer _ _ Hanswer) as [H500 _];
         rewrite H500 in Hstatus; discriminate Hstatus);
    injection Hanswer as <-; try discriminate Hstatus.
  do 5 eexists.
  split; [eassumption |]. split; [eassumption |]. split; [eassumption |].
  split; [apply mutations_after_answer | reflexivity].
Qed.


End PlanEnds.

(** ** What [trim] leaves of a name *)

Definition starts_with (s p : string) : Prop := exists rest, s = (p ++ rest)%string.

Definition ends_with (s p : string) : Prop := exists front, s = (front ++ p)%string.

(** No white-space character at either end. *)
Definition trimmed (s : string) : Prop :=
  forall c, In c white_space -> ~ starts_with s c /\ ~ ends_with s c.

Section TrimFacts.

Local Open Scope string_scope.

Lemma append_nil_r (s : string) : s ++ "" = s.
Proof. induction s as [| c s IH]; simpl; [reflexivity | now rewrite IH]. Qed.

Lemma append_assoc (a b c : string) : (a ++ b) ++ c = a ++ (b ++ c).
Proof. induction a as [| x a IH]; simpl; [reflexivity | now rewrite IH]. Qed.

Lemma length_append (a b : string) :
  String.length (a ++ b) = String.length a + String.length b.
Proof. induction a as [| x a IH]; simpl; [reflexivity | now rewrite IH]. Qed.

Lemma rev_string_spec (s acc : string) : rev_string s acc = reverse s ++ acc.
Proof.
  unfold reverse. revert acc.
  induction s as [| c s IH]; intros acc; simpl; [reflexivity |].
  rewrite (IH (String c acc)), (IH (String c EmptyString)).
  now rewrite append_assoc.
Qed.

Lemma reverse_cons (c : ascii) (s : string) :
  reverse (String c s) = reverse s ++ String c EmptyString.
Proof. unfold reverse at 1. simpl. apply rev_string_spec. Qed.

Lemma reverse_append (a b : string) : reverse (a ++ b) = reverse b ++ reverse a.
Proof.
  induction a as [| c a IH]; simpl.
  - now rewrite append_nil_r.
  - now rewrite !reverse_cons, IH, append_assoc.
Qed.

Lemma reverse_involutive (s : string) : reverse (reverse s) = s.
Proof.
  induction s as [| c s IH]; [reflexivity |].
  now rewrite reverse_cons, reverse_append, IH.
Qed.

Lemma length_reverse (s : string) : String.length (reverse s) = String.length s.
Proof.
  induction s as [| c s IH]; [reflexivity |].
  rewrite reverse_cons, length_append, IH. simpl. lia.
Qed.

(** [strip_prefix] removes exactly a prefix. *)
Lemma strip_prefix_spec (p s r : string) :
  strip_prefix p s = Some r <-> s = p ++ r.
Proof.
  revert s. induction p as [| a p IH]; intros s; simpl.
  - split; [intros H; now injection H | intros ->; reflexivity].
  - destruct s as [| b s]; [split; discriminate |].
    destruct (Ascii.eqb_spec a b) as [-> | Hab].
    + rewrite IH. split; [intros ->; reflexivity | intros H; now injection H].
    + split; [discriminate | intros H; injection H as H _; congruence].
Qed.

Lemma strip_any_none (ps : list string) (s : string) :
  strip_any ps s = None <-> forall p, In p ps -> ~ starts_with s p.
Proof.
  induction ps as [| q ps IH]; simpl.
  - split; [intros _ p [] | reflexivity].
  - destruct (strip_prefix q s) as [r |] eqn:Hq.
    + split; [discriminate |]. intros H. exfalso.
      apply (H q (or_introl eq_refl)). exists r. now apply strip_prefix_spec.
    + rewrite IH. split.
      * intros H p [<- | Hp]; [| now apply H].
        intros [r Hr]. apply strip_prefix_spec in Hr. congruence.
      * intros H p Hp. apply H. now right.
Qed.

Lemma strip_any_some (ps : list string) (s r : string) :
  strip_any ps s = Some r -> exists p, In p ps /\ s = p ++ r.
Proof.
  induction ps as [| q ps IH]; simpl; [discriminate |].
  destruct (strip_prefix q s) as [r' |] eqn:Hq.
  - intros H. injection H as <-. exists q. split; [now left |].
    now apply strip_prefix_spec.
  - intros H. destruct (IH H) as (p & Hp & Hs). exists p. split; [now right | exact Hs].
Qed.

(** With fuel for every character, stripping goes on until nothing to
    strip is left. *)
Lemma strip_all_done (ps : list string) (fuel : nat) (s : string) :
  (forall p, In p ps -> p <> "") ->
  String.length s <= fuel ->
  strip_any ps (strip_all fuel ps s) = None.
Proof.
  intros Hne. revert s. induction fuel as [| fuel IH]; intros s Hlen; simpl.
  - destruct s; [| simpl in Hlen; lia].
    apply strip_any_none. intros p Hp [r Hr].
    destruct p; [now apply (Hne "" Hp) | discriminate].
  - destruct (strip_any ps s) as [r |] eqn:Hs; [| exact Hs].
    apply IH. destruct (strip_any_some _ _ _ Hs) as (p & Hp & ->).
    rewrite length_append in Hlen.
    destruct p; [now destruct (Hne "" Hp) | simpl in Hlen; lia].
Qed.

(** What is left is a tail of the string. *)
Lemma strip_all_tail (ps : list string) (fuel : nat) (s : string) :
  exists front, s = front ++ strip_all fuel ps s.
Proof.
  revert s. induction fuel as [| fuel IH]; intros s; simpl.
  - now exists "".
  - destruct (strip_any ps s) as [r |] eqn:Hs; [| now exists ""].
    destruct (strip_any_some _ _ _ Hs) as (p & _ & ->).
    destruct (IH r) as [front Hr]. exists (p ++ front).
    now rewrite append_assoc, <- Hr.
Qed.

(** Nothing to strip: the string is left as it is. *)
Lemma strip_all_nothing (ps : list string) (fuel : nat) (s : string) :
  strip_any ps s = None -> strip_all fuel ps s = s.
Proof. destruct fuel; simpl; [reflexivity | now intros ->]. Qed.

Lemma white_space_nonempty (p : string) : In p white_space -> p <> "".
Proof.
  assert (H : forallb (fun q => negb (String.eqb q "")) white_space = true)
    by reflexivity.
  intros Hp. apply (proj1 (forallb_forall _ _) H) in Hp.
  intros ->. discriminate.
Qed.

Lemma reversed_white_space_nonempty (p : string) :
  In p (map reverse white_space) -> p <> "".
Proof.
  assert (H : forallb (fun q => negb (String.eqb q ""))
                (map reverse white_space) = true) by reflexivity.
  intros Hp. apply (proj1 (forallb_forall _ _) H) in Hp.
  intros ->. discriminate.
Qed.

Lemma trimStart_tail (s : string) : exists front, s = front ++ trimStart s.
Proof. apply strip_all_tail. Qed.

Lemma trimStart_done (s : string) :
  forall c, In c white_space -> ~ starts_with (trimStart s) c.
Proof.
  apply strip_any_none. apply strip_all_done; [exact white_space_nonempty | lia].
Qed.

Lemma trimEnd_head (s : string) : exists back, s = trimEnd s ++ back.
Proof.
  unfold trimEnd.
  destruct (strip_all_tail (map reverse white_space) (String.length s) (reverse s))
    as [front H].
  exists (reverse front).
  rewrite <- reverse_append, <- H. symmetry. apply reverse_involutive.
Qed.

Lemma trimEnd_done (s : string) :
  forall c, In c white_space -> ~ ends_with (trimEnd s) c.
Proof.
  intros c Hc [front Hfront].
  assert (Hnone : strip_any (map reverse white_space) (reverse (trimEnd s)) = None).
  { unfold trimEnd. rewrite reverse_involutive.
    apply strip_all_done; [exact reversed_white_space_nonempty |].
    rewrite length_reverse. lia. }
  apply (proj1 (strip_any_none _ _) Hnone (reverse c));
    [now apply in_map |].
  exists (reverse front). now rewrite Hfront, reverse_append.
Qed.

(** [trim] leaves no white space at either end. *)
Lemma trim_trimmed (s : string) : trimmed (trim s).
Proof.
  intros c Hc. split; [| now apply trimEnd_done].
  intros [rest Hrest]. unfold trim in Hrest.
  destruct (trimEnd_head (trimStart s)) as [back Hback].
  apply (trimStart_done s c Hc). exists (rest ++ back).
  now rewrite Hback, Hrest, append_assoc.
Qed.

(** [trim] leaves a trimmed string as it is. *)
Lemma trim_of_trimmed (s : string) : trimmed s -> trim s = s.
Proof.
  intros H. unfold trim, trimStart, trimEnd.
  rewrite (strip_all_nothing white_space _ s).
  2:{ apply strip_any_none. intros c Hc. now apply H. }
  rewrite strip_all_nothing; [apply reverse_involutive |].
  apply strip_any_none. intros p Hp [rest Hrest].
  apply in_map_iff in Hp. destruct Hp as (c & <- & Hc).
  apply (proj2 (H c Hc)). exists (reverse rest).
  rewrite <- (reverse_involutive s), Hrest, reverse_append.
  now rewrite reverse_involutive.
Qed.

End TrimFacts.

(** ** The names and the answer object *)

Section NamesAndAnswers.

Variable R : Runtime.

Lemma lookup_set_prop_same (props : list (string * value)) (key : string)
  (v : value) :
  lookup key (set_prop props key v) = Some v.
Proof.
  induction props as [| [k x] props IH]; simpl.
  - now rewrite String.eqb_refl.
  - destruct (String.eqb_spec k key) as [-> | Hk]; simpl.
    + now rewrite String.eqb_refl.
    + destruct (String.eqb_spec key k); [congruence | exact IH].
Qed.

Lemma lookup_set_prop_other (props : list (string * value)) (key other : string)
  (v : value) :
  other <> key ->
  lookup other (set_prop props key v) = lookup other props.
Proof.
  intros Hne. induction props as [| [k x] props IH]; simpl.
  - destruct (String.eqb_spec other key); [contradiction | reflexivity].
  - destruct (String.eqb_spec k key) as [-> | Hk]; simpl.
    + destruct (String.eqb_spec other key); [contradiction | reflexivity].
    + destruct (String.eqb_spec other k); [reflexivity | exact IH].
Qed.

Lemma set_prop_absent (props : list (string * value)) (key : string) (v : value) :
  lookup key props = None -> set_prop props key v = props ++ [(key, v)].
Proof.
  induction props as [| [k x] props IH]; simpl; [reflexivity |].
  destruct (String.eqb_spec key k) as [-> | Hk]; [discriminate |].
  intros H. destruct (String.eqb_spec k key); [congruence |].
  now rewrite (IH H).
Qed.

(** A result that passes the double-success test is an object. *)
Lemma double_success_object (result : value) :
  double_success_holds result -> exists props, result = VObj props.
Proof.
  intros (success & data & inner & Hs & Ts & _).
  destruct result; simpl in Hs; try discriminate;
    try (injection Hs as <-; discriminate Ts).
  now exists props.
Qed.

(** X16 - The object the 200 answer prints, [{...result, planId}]: its
    [planId] is the new id, whether or not the upstream's result had one;
    every other property reads as in the upstream's result; and when the
    result had no [planId] the new one comes last, after the result's
    properties in their order. *)
Theorem planId_is_added_to_the_result (result planId : value) :
  double_success_holds result ->
  get_prop (VObj (set_prop (spread result) "planId" planId)) "planId"
  = inr planId
  /\ (forall key,
        key <> "planId" ->
        get_prop (VObj (set_prop (spread result) "planId" planId)) key
        = get_prop result key)
  /\ (forall props,
        result = VObj props ->
        lookup "planId" props = None ->
        set_prop (spread result) "planId" planId = props ++ [("planId", planId)]).
Proof.
  intros Hds. destruct (double_success_object result Hds) as [props ->].
  simpl. split; [now rewrite lookup_set_prop_same |]. split.
  - intros key Hkey. now rewrite (lookup_set_prop_other props "planId" key planId Hkey).
  - intros props' Heq Habsent. injection Heq as <-.
    now apply set_prop_absent.
Qed.

(** The name a branch computes is the trim of something. *)
Lemma sync_call_name (type email first last image id : value)
  (fn : mutation) (args : value) (text : string) :
  sync_call R type email first last image id = Some (fn, args, text) ->
  get_prop args "name" = inr (VStr (full_name R first last)).
Proof.
  unfold sync_call.
  destruct (strict_eq_str type "user.created");
    [| destruct (strict_eq_str type "user.updated"); [| discriminate]];
    intros H; injection H as _ <- _; reflexivity.
Qed.

(** X17 - In every run of the webhook handler, the [name] given to a
    sync mutation is a string with no white-space character at its start
    and none at its end. *)
Theorem synced_name_is_trimmed (w : World R) (request : http_request)
  (fn : mutation) (args : value) :
  In (Mutation fn args) (trace_of (run (clerk_webhook R request) w)) ->
  exists name,
    get_prop args "name" = inr (VStr name) /\ trimmed name.
Proof.
  intros Hin.
  pose proof (clerk_webhook_ends R w request) as Hend.
  remember (response_of (run (clerk_webhook R request) w)) as run_answer eqn:Ha.
  remember (world_of (run (clerk_webhook R request) w)) as run_world eqn:Hw.
  remember (trace_of (run (clerk_webhook R request) w)) as run_trace eqn:Ht.
  clear Ha Hw Ht.
  destruct Hend;
    try solve [simpl in Hin; repeat destruct Hin as [Hin | Hin];
               try discriminate; contradiction];
    (apply in_app_or in Hin; destruct Hin as [Hin | [Hin | []]];
     [simpl in Hin; repeat destruct Hin as [Hin | Hin];
      try discriminate; contradiction |]);
    injection Hin as <- <-;
    exists (full_name R first last);
    (split; [eapply sync_call_name; eassumption | apply trim_trimmed]).
Qed.

(** X18 - When first and last name are strings and the first name,
    a space and the last name together have no white space at either end,
    the name the handler computes is exactly that. *)
Theorem plain_names_are_joined (f l : string) :
  trimmed (f ++ " " ++ l) ->
  full_name R (VStr f) (VStr l) = (f ++ " " ++ l)%string.
Proof.
  intros H.
  rewrite (full_name_of_parts R (VStr f) (VStr l) f l);
    [now apply trim_of_trimmed | now left | now left].
Qed.

End NamesAndAnswers.

Section OneName.

Variable R : Runtime.

Local Open Scope string_scope.

(** Where a prefix of [a ++ b] ends: inside [a], or past it. *)
Lemma prefix_of_append (a b c rest : string) :
  a ++ b = c ++ rest ->
  starts_with a c \/ exists c', c = a ++ c' /\ b = c' ++ rest.
Proof.
  revert c. induction a as [| x a IH]; intros c H; simpl in H.
  - right. exists c. now split.
  - destruct c as [| y c]; [left; now exists (String x a) |].
    injection H as <- H. destruct (IH c H) as [[r ->] | (c' & -> & ->)].
    + left. now exists r.
    + right. now exists c'.
Qed.

(** No white-space character is a space after something else. *)
Lemma white_space_not_after (f c : string) :
  In c white_space -> f <> "" -> c <> f ++ " ".
Proof.
  intros Hc Hf ->.
  assert (H : forallb
                (fun q => match reverse q with
                          | String " " (String _ _) => false
                          | _ => true
                          end) white_space = true) by reflexivity.
  apply (proj1 (forallb_forall _ _) H) in Hc.
  rewrite reverse_append in Hc. simpl in Hc.
  destruct (reverse f) as [| y r] eqn:Hr; [| discriminate Hc].
  apply Hf. rewrite <- (reverse_involutive f), Hr. reflexivity.
Qed.

Lemma trimmed_starts (s : string) :
  trimmed s -> strip_any white_space s = None.
Proof. intros H. apply strip_any_none. intros c Hc. now apply H. Qed.

Lemma trimmed_ends (s : string) :
  trimmed s -> strip_any (map reverse white_space) (reverse s) = None.
Proof.
  intros H. apply strip_any_none. intros p Hp [rest Hrest].
  apply in_map_iff in Hp. destruct Hp as (c & <- & Hc).
  apply (proj2 (H c Hc)). exists (reverse rest).
  rewrite <- (reverse_involutive s), Hrest, reverse_append.
  now rewrite reverse_involutive.
Qed.

(** The converse, by which a given string is checked. *)
Lemma trimmed_by_check (s : string) :
  strip_any white_space s = None ->
  strip_any (map reverse white_space) (reverse s) = None ->
  trimmed s.
Proof.
  intros Hs He c Hc. split.
  - now apply (proj1 (strip_any_none _ _) Hs).
  - intros [front ->].
    apply (proj1 (strip_any_none _ _) He (reverse c)); [now apply in_map |].
    exists (reverse front). now rewrite reverse_append.
Qed.

Lemma strip_all_step (ps : list string) (fuel : nat) (s r : string) :
  strip_any ps s = Some r -> strip_all (S fuel) ps s = strip_all fuel ps r.
Proof. simpl. now intros ->. Qed.

Lemma space_is_stripped (s : string) :
  strip_any white_space (String " " s) = Some s.
Proof. reflexivity. Qed.

Lemma space_is_stripped_back (s : string) :
  strip_any (map reverse white_space) (String " " s) = Some s.
Proof. reflexivity. Qed.

Lemma trim_space_after (f : string) : trimmed f -> trim (f ++ " ") = f.
Proof.
  intros H. destruct f as [| x f]; [reflexivity |].
  unfold trim.
  assert (Hstart : trimStart (String x f ++ " ") = String x f ++ " ").
  { unfold trimStart. apply strip_all_nothing. apply strip_any_none.
    intros c Hc [rest Hrest].
    destruct (prefix_of_append _ _ _ _ Hrest) as [Hpre | (c' & Hc' & Hsp)].
    - now apply (proj1 (H c Hc)).
    - destruct c' as [| y c'].
      + rewrite append_nil_r in Hc'. subst c.
        apply (proj1 (H _ Hc)). exists "". now rewrite append_nil_r.
      + simpl in Hsp. injection Hsp as <- Hsp.
        destruct c'; [| discriminate Hsp].
        now apply (white_space_not_after (String x f) c Hc). }
  rewrite Hstart. unfold trimEnd.
  rewrite reverse_append, length_append. simpl String.length.
  replace (S (String.length f) + 1) with (S (S (String.length f))) by lia.
  rewrite (strip_all_step (map reverse white_space) _ _
             (reverse (String x f)) (space_is_stripped_back _)).
  rewrite strip_all_nothing by (now apply trimmed_ends).
  apply reverse_involutive.
Qed.

Lemma trim_space_before (l : string) : trimmed l -> trim (" " ++ l) = l.
Proof.
  intros H. unfold trim.
  assert (Hstart : trimStart (" " ++ l) = l).
  { unfold trimStart. simpl String.length. simpl append.
    rewrite (strip_all_step white_space _ _ l (space_is_stripped _)).
    apply strip_all_nothing. now apply trimmed_starts. }
  rewrite Hstart. unfold trimEnd.
  rewrite strip_all_nothing by (now apply trimmed_ends).
  apply reverse_involutive.
Qed.

(** X19 - When one of the two names is missing ([null] or [undefined])
    and the other is a string with no white space at either end, the name
    the handler computes is that string: the separating space is not
    kept. *)
Theorem one_name_stands_alone (present missing : value) (s : string) :
  present = VStr s ->
  trimmed s ->
  missing = VNull \/ missing = VUndefined ->
  full_name R present missing = s /\ full_name R missing present = s.
Proof.
  intros -> Hs Hm.
  assert (Hp : name_part (VStr s) s) by now left.
  assert (Hmiss : name_part missing "") by (right; now split).
  split.
  - rewrite (full_name_of_parts R _ _ _ _ Hp Hmiss).
    now apply trim_space_after.
  - rewrite (full_name_of_parts R _ _ _ _ Hmiss Hp).
    now apply trim_space_before.
Qed.

End OneName.

(** ** More runs *)

Module Bench.

Import Demo.

(** A parser like [Demo.parse], for the documents given. *)
Definition parse_in (docs : list value) (text : string) : result value :=
  match find (fun v => String.eqb (to_json v) (trim text)) docs with
  | Some v => inr v
  | None => inl syntax_error
  end.

Definition unusable : exn :=
  JsError "Error" "Base64Coder: incorrect characters for decoding".

(** A runtime like [Demo.runtime], whose parser knows [docs] and whose
    [Webhook] constructor accepts the secret or not. *)
Definition runtime_with (docs : list value) (usable : bool) (sc : scenario)
  : Runtime :=
  {| World := nat;
     Webhook := string;
     process_env := fun name =>
       if String.eqb name "CLERK_WEBHOOK_SECRET" then secret sc else None;
     JSON_parse := parse_in docs;
     JSON_stringify := to_json;
     number_to_string := print_number;
     Webhook_new := fun s => if usable then inr s else inl unusable;
     Webhook_verify := fun wh payload h _ =>
       if String.eqb (svix_signature h) ("v1," ++ wh)%string
       then parse_in docs payload
       else inl bad_signature;
     runMutation := fun _ _ n =>
       if store_fails sc then (inl store_error, n)
       else (inr (VStr ("doc_" ++ dec n)%string), S n);
     fetch := fun _ _ n => (upstream sc, n) |}.

(** A [user.created] event with no [data]. *)
Definition bare_event : value := VObj [("type", VStr "user.created")].

Definition updated_event : value := event "user.updated" (user_data [ada_email]).

Definition quiet : scenario :=
  {| secret := Some "whsec_demo"; upstream := unreachable; store_fails := false |}.

(** The secret is set, and svix refuses it. *)
Definition with_unusable_secret : Runtime := runtime_with documents false quiet.

(** The parser knows [bare_event] too. *)
Definition with_bare_event : Runtime :=
  runtime_with (bare_event :: documents) true quiet.


Definition success_text : string := to_json (generated (VBool true)).

(** The upstream generates a plan and the store works. *)
Definition generating : Runtime := generator (answers 200 success_text) false.

(** What [String(x)] throws on an object with no string conversion. *)
Definition no_conversion : exn :=
  JsError "TypeError" "Cannot convert object to primitive value".

(** A thrown object that is no [Error] and has no string conversion. *)
Definition opaque : exn := JsOther (inl no_conversion) (inl no_conversion).

(** Like [generating], with a store that rejects with [opaque]. *)
Definition with_opaque_rejection : Runtime :=
  {| World := nat;
     Webhook := string;
     process_env := process_env generating;
     JSON_parse := parse;
     JSON_stringify := to_json;
     number_to_string := print_number;
     Webhook_new := fun s => inr s;
     Webhook_verify := fun _ _ _ _ => inl bad_signature;
     runMutation := fun _ _ n => (inl opaque, n);
     fetch := fun _ _ n => (answers 200 success_text, n) |}.

Definition ada_image : value := VStr "https://img.example/1.png".

Definition ada_sync_args (R : Runtime) : value :=
  syncUser_args R (VStr "ada@example.com") (VStr " Ada") VNull ada_image
    (VStr "user_1").

Definition summer_plan : value :=
  plan_record (VStr "user_1") diet workout (VStr "Summer cut").

Definition saved_answer : http_response :=
  json_response
    (to_json (VObj (set_prop (spread (generated (VBool true))) "planId"
                      (VStr "doc_0"))))
    200.

End Bench.

Section MoreRuns.

Import Demo.
Import Bench.

Lemma parse_updated : parse (to_json updated_event) = inr updated_event.
Proof. reflexivity. Defined.

Lemma ada_reads (type : string) :
  event_reads (event type (user_data [ada_email])) (user_data [ada_email])
    (VStr "ada@example.com") (VStr "user_1") (VStr " Ada") VNull ada_image.
Proof. repeat split. Defined.

Lemma ada_first : name_part (VStr " Ada") " Ada".
Proof. now left. Defined.

Lemma no_last : name_part VNull "".
Proof. right. split; [now left | reflexivity]. Defined.


(** Witness of X1. *)
Lemma updated_user_is_synced_run :
  verification with_secret 0 (webhook_request signed (to_json updated_event))
    (inr updated_event)
  /\ event_reads updated_event (user_data [ada_email])
       (VStr "ada@example.com") (VStr "user_1") (VStr " Ada") VNull ada_image
  /\ name_part (VStr " Ada") " Ada"
  /\ name_part VNull ""
  /\ mutations
       (trace_of (run (clerk_webhook with_secret
                         (webhook_request signed (to_json updated_event))) 0))
     = [Mutation api_users_updateUser
          (VObj [("clerkId", VStr "user_1"); ("email", VStr "ada@example.com");
                 ("name", VStr (trim (" Ada" ++ " " ++ "")));
                 ("image", ada_image)])].
Proof.
  split; [exact (demo_verified _ parse_updated) |].
  split; [exact (ada_reads "user.updated") |].
  split; [exact ada_first |]. split; [exact no_last |].
  exact (updated_user_is_synced with_secret 0 _ updated_event _ _ _ _ _ _
           " Ada" "" (demo_verified _ parse_updated) eq_refl
           (ada_reads "user.updated") ada_first no_last).
Defined.



Lemma unusable_configured : configured with_unusable_secret "whsec_demo".
Proof. split; [reflexivity | discriminate]. Defined.

(** Witness of X4. *)
Lemma unusable_secret_is_unhandled_run :
  configured with_unusable_secret "whsec_demo"
  /\ carries (webhook_request signed (to_json created_event)) signed_headers
  /\ JSON_parse with_unusable_secret (to_json created_event) = inr created_event
  /\ Webhook_new with_unusable_secret "whsec_demo" = inl unusable
  /\ run (clerk_webhook with_unusable_secret
            (webhook_request signed (to_json created_event))) 0
     = (inl unusable,
        (0, [HeaderGet "svix-id"; HeaderGet "svix-signature";
             HeaderGet "svix-timestamp"; BodyJson; WebhookNew "whsec_demo"])).
Proof.
  split; [exact unusable_configured |]. split; [apply demo_signed |].
  split; [reflexivity |]. split; [reflexivity |].
  exact (unusable_secret_is_unhandled with_unusable_secret 0
           (webhook_request signed (to_json created_event)) "whsec_demo"
           signed_headers created_event unusable unusable_configured
           (demo_signed _) eq_refl eq_refl).
Defined.

Lemma bare_verified :
  verification with_bare_event 0 (webhook_request signed (to_json bare_event))
    (inr bare_event).
Proof.
  exists "whsec_demo", signed_headers, bare_event, "whsec_demo".
  split; [split; [reflexivity | discriminate] |].
  split; [apply demo_signed |]. repeat split.
Defined.

(** Witness of X5: a [user.created] event with no [data]. *)
Lemma event_without_data_throws_run :
  verification with_bare_event 0 (webhook_request signed (to_json bare_event))
    (inr bare_event)
  /\ user_event (VStr "user.created")
  /\ get_prop bare_event "data" = inr VUndefined
  /\ (exists message,
        response_of
          (run (clerk_webhook with_bare_event
                  (webhook_request signed (to_json bare_event))) 0)
        = inl (JsError "TypeError" message))
  /\ mutations
       (trace_of (run (clerk_webhook with_bare_event
                         (webhook_request signed (to_json bare_event))) 0))
     = []
  /\ world_of
       (run (clerk_webhook with_bare_event
               (webhook_request signed (to_json bare_event))) 0)
     = 0.
Proof.
  split; [exact bare_verified |]. split; [now left |]. split; [reflexivity |].
  exact (event_without_data_throws with_bare_event 0 _ bare_event
           (VStr "user.created") VUndefined bare_verified eq_refl
           (or_introl eq_refl) eq_refl (or_introl eq_refl)).
Defined.

Lemma ada_is_synced :
  In (Mutation api_users_syncUser (ada_sync_args with_secret))
    (trace_of (run (clerk_webhook with_secret
                      (webhook_request signed (to_json created_event))) 0)).
Proof. do 6 right. left. reflexivity. Defined.

(** Witness of X6. *)
Lemma sync_needs_verified_user_event_run :
  In (Mutation api_users_syncUser (ada_sync_args with_secret))
    (trace_of (run (clerk_webhook with_secret
                      (webhook_request signed (to_json created_event))) 0))
  /\ (exists evt type,
        verification with_secret 0
          (webhook_request signed (to_json created_event)) (inr evt)
        /\ get_prop evt "type" = inr type
        /\ ((type = VStr "user.created"
             /\ api_users_syncUser = api_users_syncUser)
            \/ (type = VStr "user.updated"
                /\ api_users_syncUser = api_users_updateUser)))
  /\ mutations
       (trace_of (run (clerk_webhook with_secret
                         (webhook_request signed (to_json created_event))) 0))
     = [Mutation api_users_syncUser (ada_sync_args with_secret)].
Proof.
  split; [exact ada_is_synced |].
  exact (sync_needs_verified_user_event with_secret 0 _ _ _ ada_is_synced).
Defined.

(** Witness of X7. *)
Lemma webhook_answer_meaning_run :
  response_of
    (run (clerk_webhook with_secret
            (webhook_request signed (to_json created_event))) 0)
  = inr (text_response "Webhooks processed successfully" 200)
  /\ exists evt,
       verification with_secret 0
         (webhook_request signed (to_json created_event)) (inr evt).
Proof.
  split; [reflexivity |].
  destruct (webhook_answer_meaning with_secret 0
              (webhook_request signed (to_json created_event))
              (text_response "Webhooks processed successfully" 200) eq_refl)
    as [[_ H] | [[H _] | [H _]]]; [exact H | discriminate H | discriminate H].
Defined.

Lemma ada_is_verified :
  In (Verify (to_json created_event) signed_headers)
    (trace_of (run (clerk_webhook with_secret
                      (webhook_request signed (to_json created_event))) 0)).
Proof. do 5 right. left. reflexivity. Defined.

(** Witness of X8. *)
Lemma verifier_is_given_the_request_run :
  In (Verify (to_json created_event) signed_headers)
    (trace_of (run (clerk_webhook with_secret
                      (webhook_request signed (to_json created_event))) 0))
  /\ carries (webhook_request signed (to_json created_event)) signed_headers
  /\ (exists payload,
        JSON_parse with_secret
          (req_body (webhook_request signed (to_json created_event)))
        = inr payload
        /\ to_json created_event = JSON_stringify with_secret payload)
  /\ verifications
       (trace_of (run (clerk_webhook with_secret
                         (webhook_request signed (to_json created_event))) 0))
     = [Verify (to_json created_event) signed_headers].
Proof.
  split; [exact ada_is_verified |].
  exact (verifier_is_given_the_request with_secret 0 _ _ _ ada_is_verified).
Defined.



(** A store that rejects with an object that has no string conversion:
    [String(error)] throws in the [catch] and the handler fails, after the
    mutation has been called. *)
Example opaque_rejection_escapes :
  run (generate_program with_opaque_rejection (plan_call summer_request)) 0
  = (inl no_conversion,
     (0, up_to_answer with_opaque_rejection summer_request
           ++ [Mutation api_plans_createPlan summer_plan])).
Proof. reflexivity. Qed.

(** Witness of X10: a plan request whose body is not JSON. *)
Lemma unparsable_request_is_reported_run :
  JSON_parse generating "not json" = inl syntax_error
  /\ run (generate_program generating
            {| req_headers := []; req_body := "not json" |}) 0
     = (inr (json_response
               (to_json (VObj [("success", VBool false);
                               ("error", VStr "Unexpected token in JSON")]))
               500),
        (0, [BodyJson])).
Proof.
  split; [reflexivity |].
  exact (unparsable_request_is_reported generating 0
           {| req_headers := []; req_body := "not json" |} syntax_error eq_refl).
Defined.

(** Witness of X11: the upstream cannot be reached. *)
Lemma transport_failure_is_reported_run :
  JSON_parse with_secret (to_json summer_request) = inr summer_request
  /\ fetch with_secret pythonApiUrl (forwarded with_secret summer_request) 0
     = (inl (JsError "TypeError" "fetch failed"), 0)
  /\ response_of (run (generate_program with_secret (plan_call summer_request)) 0)
     = inr (json_response
              (to_json (VObj [("success", VBool false);
                              ("error", VStr "fetch failed")]))
              500)
  /\ world_of (run (generate_program with_secret (plan_call summer_request)) 0)
     = 0
  /\ mutations
       (trace_of (run (generate_program with_secret (plan_call summer_request)) 0))
     = [].
Proof.
  split; [reflexivity |]. split; [reflexivity |].
  exact (transport_failure_is_reported with_secret 0 0
           (plan_call summer_request) summer_request
           (JsError "TypeError" "fetch failed") eq_refl (or_introl eq_refl)).
Defined.

(** Witness of X12: the upstream answers 200 with a page of HTML. *)
Lemma unparsable_answer_is_reported_run :
  upstream_answers (generator (answers 200 "<html>") false) 0
    (plan_call summer_request) summer_request 200 "<html>" 0
  /\ is_2xx 200
  /\ JSON_parse (generator (answers 200 "<html>") false) "<html>"
     = inl syntax_error
  /\ run (generate_program (generator (answers 200 "<html>") false)
            (plan_call summer_request)) 0
     = (inr (json_response
               (to_json
                  (VObj [("success", VBool false);
                         ("error",
                          VStr ("Failed to parse Python backend JSON: "
                                  ++ "SyntaxError: Unexpected token in JSON"
                                  ++ " | Raw: " ++ "<html>"))]))
               500),
        (0, up_to_answer (generator (answers 200 "<html>") false) summer_request))
  /\ mutations
       (trace_of (run (generate_program (generator (answers 200 "<html>") false)
                         (plan_call summer_request)) 0))
     = [].
Proof.
  split; [exact (demo_answers 200 "<html>" false _ parse_summer) |].
  split; [exact is_2xx_200 |]. split; [reflexivity |].
  exact (unparsable_answer_is_reported (generator (answers 200 "<html>") false)
           0 0 (plan_call summer_request) summer_request 200 "<html>"
           syntax_error (demo_answers 200 "<html>" false _ parse_summer)
           is_2xx_200 eq_refl).
Defined.

Lemma summer_is_saved :
  In (Mutation api_plans_createPlan summer_plan)
    (trace_of (run (generate_program generating (plan_call summer_request)) 0)).
Proof. do 3 right. left. reflexivity. Defined.

(** Witness of X13. *)
Lemma plan_needs_double_success_run :
  In (Mutation api_plans_createPlan summer_plan)
    (trace_of (run (generate_program generating (plan_call summer_request)) 0))
  /\ api_plans_createPlan = api_plans_createPlan
  /\ (exists payload result w',
        generated_for generating 0 (plan_call summer_request) payload result w'
        /\ plan_of payload result summer_plan)
  /\ mutations
       (trace_of (run (generate_program generating (plan_call summer_request)) 0))
     = [Mutation api_plans_createPlan summer_plan]
  /\ get_prop summer_plan "isActive" = inr (VBool true)
  /\ (exists name,
        get_prop summer_plan "name" = inr name /\ truthy name = true).
Proof.
  split; [exact summer_is_saved |].
  exact (plan_needs_double_success generating 0 (plan_call summer_request)
           api_plans_createPlan summer_plan summer_is_saved).
Defined.

(** Witness of X14. *)
Lemma answer_200_means_stored_run :
  response_of (run (generate_program generating (plan_call summer_request)) 0)
  = inr saved_answer
  /\ status saved_answer = 200
  /\ exists payload result w' record planId,
       generated_for generating 0 (plan_call summer_request) payload result w'
       /\ plan_of payload result record
       /\ runMutation generating api_plans_createPlan record w'
          = (inr planId,
             world_of (run (generate_program generating
                              (plan_call summer_request)) 0))
       /\ mutations
            (trace_of (run (generate_program generating
                              (plan_call summer_request)) 0))
          = [Mutation api_plans_createPlan record]
       /\ body saved_answer
          = JSON_stringify generating
              (VObj (set_prop (spread result) "planId" planId)).
Proof.
  split; [reflexivity |]. split; [reflexivity |].
  exact (answer_200_means_stored generating 0 (plan_call summer_request)
           saved_answer eq_refl eq_refl).
Defined.



Lemma generated_is_success : double_success_holds (generated (VBool true)).
Proof.
  exists (VBool true),
    (VObj [("success", VBool true); ("diet_plan", diet);
           ("workout_plan", workout)]),
    (VBool true).
  repeat split.
Defined.

(** Witness of X16. *)
Lemma planId_is_added_to_the_result_run :
  double_success_holds (generated (VBool true))
  /\ get_prop
       (VObj (set_prop (spread (generated (VBool true))) "planId" (VStr "doc_0")))
       "planId"
     = inr (VStr "doc_0")
  /\ get_prop
       (VObj (set_prop (spread (generated (VBool true))) "planId" (VStr "doc_0")))
       "success"
     = get_prop (generated (VBool true)) "success".
Proof.
  split; [exact generated_is_success |].
  destruct (planId_is_added_to_the_result (generated (VBool true))
              (VStr "doc_0") generated_is_success) as (Hid & Hother & _).
  split; [exact Hid |]. apply Hother. discriminate.
Defined.

(** Witness of X17. *)
Lemma synced_name_is_trimmed_run :
  In (Mutation api_users_syncUser (ada_sync_args with_secret))
    (trace_of (run (clerk_webhook with_secret
                      (webhook_request signed (to_json created_event))) 0))
  /\ exists name,
       get_prop (ada_sync_args with_secret) "name" = inr (VStr name)
       /\ trimmed name.
Proof.
  split; [exact ada_is_synced |].
  exact (synced_name_is_trimmed with_secret 0 _ _ _ ada_is_synced).
Defined.

Lemma ada_lovelace_trimmed : trimmed "Ada Lovelace".
Proof. apply trimmed_by_check; reflexivity. Defined.

(** Witness of X18. *)
Lemma plain_names_are_joined_run :
  trimmed ("Ada" ++ " " ++ "Lovelace")
  /\ full_name with_secret (VStr "Ada") (VStr "Lovelace") = "Ada Lovelace".
Proof.
  split; [exact ada_lovelace_trimmed |].
  exact (plain_names_are_joined with_secret "Ada" "Lovelace" ada_lovelace_trimmed).
Defined.

Lemma ada_trimmed : trimmed "Ada".
Proof. apply trimmed_by_check; reflexivity. Defined.

(** Witness of X19. *)
Lemma one_name_stands_alone_run :
  VStr "Ada" = VStr "Ada"
  /\ trimmed "Ada"
  /\ (VNull = VNull \/ VNull = VUndefined)
  /\ full_name with_secret (VStr "Ada") VNull = "Ada"
  /\ full_name with_secret VNull (VStr "Ada") = "Ada".
Proof.
  split; [reflexivity |]. split; [exact ada_trimmed |]. split; [now left |].
  exact (one_name_stands_alone with_secret (VStr "Ada") VNull "Ada" eq_refl
           ada_trimmed (or_introl eq_refl)).
Defined.

End MoreRuns.
